(** * Vector spine protocol: framing, CRC check and relay

    A shallow embedding of [src/spine.h], [src/spine.cpp], [src/listener.cpp]
    and of the stream double [tests/mockStream.cpp], with the properties of
    the head board / body board serial protocol stated over it.

    Conventions of the embedding
    - a byte is a [Byte.byte]; a buffer or a stream content is a [list byte];
    - C integers ([int], [size_t], [uint32_t], [MessageType]) are [Z], with
      the conversions between them written out;
    - the global [recv_buffer] arrays, the streams and [Serial] are passed
      and returned explicitly;
    - an access outside the array an expression points into is undefined
      behaviour in C++; the operations return [None] there. *)

From Stdlib Require Import ZArith List Lia Bool.
From Stdlib Require Import Strings.Byte.
Import ListNotations.

#[local] Open Scope Z_scope.

(** ** Machine integers and bytes *)

Definition byte_to_Z (b : byte) : Z := Z.of_N (Byte.to_N b).

(** Conversion of an integer to [uint8_t]: reduction modulo 2^8. *)
Definition uint8 (z : Z) : byte :=
  match Byte.of_N (Z.to_N (z mod 256)) with
  | Some b => b
  | None => x00
  end.

(** Conversion to [uint16_t], [uint32_t] and to the 32-bit [size_t] of the
    ESP32 target. *)
Definition uint16 (z : Z) : Z := z mod 2 ^ 16.
Definition uint32 (z : Z) : Z := z mod 2 ^ 32.
Definition to_size_t (z : Z) : Z := z mod 2 ^ 32.

(** Little-endian value of a byte sequence, and the [n] little-endian bytes
    of a value (the host is little endian: "assumes alignment, little endian
    host"). *)
Fixpoint le_decode (bs : list byte) : Z :=
  match bs with
  | [] => 0
  | b :: bs' => byte_to_Z b + 256 * le_decode bs'
  end.

Fixpoint le_encode (n : nat) (z : Z) : list byte :=
  match n with
  | O => []
  | S n' => uint8 z :: le_encode n' (z / 256)
  end.

(** ** The error monad for out-of-bounds accesses *)

Definition bind {A B : Type} (m : option A) (k : A -> option B) : option B :=
  match m with
  | Some a => k a
  | None => None
  end.

Notation "x <- m ;; k" := (bind m (fun x => k))
  (at level 61, m at next level, right associativity).
Notation "' p <- m ;; k" := (bind m (fun x => let p := x in k))
  (at level 61, p pattern, m at next level, right associativity).

(** ** Byte arrays *)

(** [load buf ofs n]: the [n] bytes at [buf + ofs]. *)
Definition load (buf : list byte) (ofs n : nat) : option (list byte) :=
  if (ofs + n <=? length buf)%nat then Some (firstn n (skipn ofs buf))
  else None.

(** [store buf ofs bs]: [buf] with the bytes [bs] written at [buf + ofs]. *)
Definition store (buf : list byte) (ofs : nat) (bs : list byte)
  : option (list byte) :=
  if (ofs + length bs <=? length buf)%nat
  then Some (firstn ofs buf ++ bs ++ skipn (ofs + length bs) buf)
  else None.

(** [*(uint16_t* )(buf+ofs)], [*(uint32_t* )(buf+ofs)], read and written. *)
Definition load_u16 (buf : list byte) (ofs : nat) : option Z :=
  bs <- load buf ofs 2 ;; Some (le_decode bs).
Definition load_u32 (buf : list byte) (ofs : nat) : option Z :=
  bs <- load buf ofs 4 ;; Some (le_decode bs).
Definition store_u16 (buf : list byte) (ofs : nat) (v : Z) :=
  store buf ofs (le_encode 2 v).
Definition store_u32 (buf : list byte) (ofs : nat) (v : Z) :=
  store buf ofs (le_encode 4 v).

(** ** The stream ([tests/mockStream.cpp]) *)

Module MockStream.

Record t := mk { buffer : list byte; readIndex : nat }.

(** [MockStream()], then [setBuffer(data)]. *)
Definition empty : t := mk [] 0.
Definition setBuffer (data : list byte) : t := mk data 0.

(** [write(data, size)] appends at the end. *)
Definition write (s : t) (data : list byte) : t :=
  mk (buffer s ++ data) (readIndex s).

(** [read()]: the next byte as an [int], or -1 at the end of the stream. *)
Definition read (s : t) : Z * t :=
  match nth_error (buffer s) (readIndex s) with
  | Some b => (byte_to_Z b, mk (buffer s) (S (readIndex s)))
  | None => (-1, s)
  end.

(** [readBytes(outBuffer, size)]: copies bytes while [i < size] and the
    stream is not exhausted; the bytes copied are returned, the caller
    stores them at [outBuffer]. *)
Definition readBytes (s : t) (size : nat) : list byte * t :=
  let bs := firstn size (skipn (readIndex s) (buffer s)) in
  (bs, mk (buffer s) (readIndex s + length bs)).

(** The bytes not read yet. *)
Definition remaining (s : t) : list byte := skipn (readIndex s) (buffer s).

End MockStream.

(** ** [esp32/rom/crc.h] *)

(** Modelled from the spec: [crc32_le] is the ESP32 ROM routine, declared in
    [esp32/rom/crc.h], which is not part of the sources.  The spec gives
    CRC32 with reflected input and output, the register initialised with the
    first argument (0xFFFFFFFF at every call site), no final XOR, IEEE
    polynomial (0xEDB88320 reflected).  [crc32_bit] is one shift of the
    register. *)
Definition crc32_bit (crc : Z) : Z :=
  if Z.testbit crc 0 then Z.lxor (Z.shiftr crc 1) 0xEDB88320
  else Z.shiftr crc 1.

(** Modelled from the spec: one input byte, least significant bit first
    (reflected input), on the [crc32_le] register. *)
Definition crc32_byte (crc : Z) (b : byte) : Z :=
  let c := Z.lxor crc (byte_to_Z b) in
  crc32_bit (crc32_bit (crc32_bit (crc32_bit
    (crc32_bit (crc32_bit (crc32_bit (crc32_bit c))))))).

(** Modelled from the spec: [crc32_le(crc, buf, len)], the register after
    the [len] bytes of [buf], returned without final XOR. *)
Definition crc32_le (crc : Z) (buf : list byte) : Z :=
  fold_left crc32_byte buf crc.

(** [#define crc32 crc32_le] *)
Definition crc32 := crc32_le.

(** ** [namespace Spine] *)

Module Spine.

(** [spine.h]: offsets of the payload size and of the payload. *)
Definition payload_size_ofs : nat := 6.
Definition payload_ofs : nat := 8.

(** [spine.cpp]: the sync byte and the offset of the message type. *)
Definition sync : byte := xaa.
Definition message_type_ofs : nat := 4.

(** [enum class MessageType]: the underlying type is [int]; the code casts
    arbitrary 16-bit values and -1 to it, so a message type is a [Z]. *)
Module MessageType.
Definition dataCharacter : Z := 0x6364.
Definition dataFrame : Z := 0x6466.
Definition shutdown : Z := 0x6473.
Definition updateFirmware : Z := 0x6675.
Definition mode : Z := 0x6D64.
Definition version : Z := 0x7276.
Definition lights : Z := 0x736C.
Definition validate : Z := 0x7374.
Definition erase : Z := 0x7878.
Definition bootFrame : Z := 0x6662.
Definition ack : Z := 0x6B61.
Definition VS : Z := 0x7376.
End MessageType.

(** [(MessageType)-1], the value returned for a frame in error. *)
Definition invalid : Z := -1.

(** [uint8_t recv_buffer[1028+payload_ofs+4]], zero-initialised (static
    storage). *)
Definition recv_buffer_len : nat := 1028 + payload_ofs + 4.
Definition recv_buffer_init : list byte := repeat x00 recv_buffer_len.

(** The code shared, word for word, by [namespace H2B] and
    [namespace B2H]; they differ by the tag bytes and the size table. *)
Section Channel.

Variables tag1 tag2 tag3 : byte.
Variable size : Z -> Z.

Definition populateHeader (buffer : list byte) (message_type : Z)
  : option (list byte * Z) :=
  buffer <- store buffer 0 [xaa] ;;
  buffer <- store buffer 1 [tag1] ;;
  buffer <- store buffer 2 [tag2] ;;
  buffer <- store buffer 3 [tag3] ;;
  buffer <- store_u16 buffer message_type_ofs (uint16 message_type) ;;
  let payload_size := to_size_t (size message_type) in
  buffer <- store_u16 buffer payload_size_ofs (uint16 payload_size) ;;
  Some (buffer, payload_size).

(** [text] is the array [text] points to; [memcpy] reads [numBytes]
    bytes of it. *)
Definition DataCharacterMsg (recv_buffer : list byte) (text : list byte)
  (numBytes : Z) : option (list byte * Z) :=
  '(recv_buffer, _) <-
     populateHeader recv_buffer MessageType.dataCharacter ;;
  let numBytes := Z.min numBytes 31 in
  if numBytes <? 0 then None else
  chars <- load text 0 (Z.to_nat numBytes) ;;
  recv_buffer <- store recv_buffer payload_ofs chars ;;
  recv_buffer <-
    store recv_buffer (payload_ofs + Z.to_nat numBytes) [x00] ;;
  let payload_size := size MessageType.dataCharacter in
  payload <- load recv_buffer payload_ofs (Z.to_nat payload_size) ;;
  let crc := crc32 (uint32 (-1)) payload in
  recv_buffer <-
    store_u32 recv_buffer (payload_ofs + Z.to_nat payload_size + 4) crc ;;
  Some (recv_buffer, to_size_t payload_size).

(** The macro [waitFor(c)]: reads one byte into [recv_buffer[offset]];
    the boolean is [false] when the macro returns from the function. *)
Definition waitFor (c : byte) (recv_buffer : list byte)
  (s : MockStream.t) (offset : nat)
  : option (bool * list byte * MockStream.t * nat) :=
  let '(r, s) := MockStream.read s in
  let b := uint8 r in
  recv_buffer <- store recv_buffer offset [b] ;;
  if Byte.eqb b c then Some (true, recv_buffer, s, S offset)
  else Some (false, recv_buffer, s, offset).

(** The result is the message type returned, the value of the reference
    [payload_size] on return, the buffer and the stream. *)
Definition ReceiveMessage (recv_buffer : list byte) (s : MockStream.t)
  (payload_size : Z) : option (Z * Z * list byte * MockStream.t) :=
  let offset := 0%nat in
  '(ok, recv_buffer, s, offset) <- waitFor sync recv_buffer s offset ;;
  if negb ok then Some (invalid, payload_size, recv_buffer, s) else
  '(ok, recv_buffer, s, offset) <- waitFor tag1 recv_buffer s offset ;;
  if negb ok then Some (invalid, payload_size, recv_buffer, s) else
  '(ok, recv_buffer, s, offset) <- waitFor tag2 recv_buffer s offset ;;
  if negb ok then Some (invalid, payload_size, recv_buffer, s) else
  '(ok, recv_buffer, s, offset) <- waitFor tag3 recv_buffer s offset ;;
  if negb ok then Some (invalid, payload_size, recv_buffer, s) else
  let '(hdr, s) := MockStream.readBytes s 4 in
  recv_buffer <- store recv_buffer message_type_ofs hdr ;;
  message_type <- load_u16 recv_buffer message_type_ofs ;;
  payload_size <- load_u16 recv_buffer payload_size_ofs ;;
  let expected_size := size message_type in
  if (expected_size <? 0) || negb (expected_size =? payload_size)
  then Some (invalid, 0, recv_buffer, s) else
  let '(body, s) := MockStream.readBytes s (Z.to_nat (payload_size + 4)) in
  recv_buffer <- store recv_buffer payload_ofs body ;;
  payload <- load recv_buffer payload_ofs (Z.to_nat payload_size) ;;
  let crc := crc32 (uint32 (-1)) payload in
  crc_in_buffer <-
    load_u32 recv_buffer (payload_ofs + Z.to_nat payload_size + 4) ;;
  if negb (crc =? crc_in_buffer)
  then Some (invalid, 0, recv_buffer, s)
  else Some (message_type, payload_size, recv_buffer, s).

Definition SendMessage (recv_buffer : list byte) (out : MockStream.t)
  (payload_size : Z) : option MockStream.t :=
  data <- load recv_buffer 0 (Z.to_nat payload_size + payload_ofs + 4) ;;
  Some (MockStream.write out data).

End Channel.

Module H2B.
Definition size (command : Z) : Z :=
  if command =? MessageType.dataCharacter then 32
  else if command =? MessageType.dataFrame then 64
  else if command =? MessageType.shutdown then 0
  else if command =? MessageType.updateFirmware then 1028
  else if command =? MessageType.mode then 0
  else if command =? MessageType.version then 0
  else if command =? MessageType.lights then 16
  else if command =? MessageType.validate then 0
  else if command =? MessageType.erase then 0
  else -1.

(** 'H' '2' 'B' *)
Definition populateHeader := populateHeader x48 x32 x42 size.
Definition DataCharacterMsg := DataCharacterMsg x48 x32 x42 size.
Definition ReceiveMessage := ReceiveMessage x48 x32 x42 size.
Definition SendMessage := SendMessage.
End H2B.

Module B2H.
Definition size (command : Z) : Z :=
  if command =? MessageType.dataCharacter then 32
  else if command =? MessageType.updateFirmware then 32
  else if command =? MessageType.dataFrame then 768
  else if command =? MessageType.bootFrame then 0
  else if command =? MessageType.ack then 4
  else if command =? MessageType.version then 40
  else if command =? MessageType.validate then 0
  else -1.

(** 'B' '2' 'H' *)
Definition populateHeader := populateHeader x42 x32 x48 size.
Definition DataCharacterMsg := DataCharacterMsg x42 x32 x48 size.
Definition ReceiveMessage := ReceiveMessage x42 x32 x48 size.
Definition SendMessage := SendMessage.
End B2H.

End Spine.

(** ** [listener.cpp] *)

Import Spine.

(** The hooks take a reference to the payload overlaid on the buffer: they
    receive the bytes of the structure and return the bytes it holds when
    they return, with the flag "modified". *)

(** [bool process(Ack& value)] *)
Definition process_Ack (value : list byte) : bool * list byte :=
  (false, value).

(** The loop of [process(DataCharacter&)]: at most 32 turns, left at the
    first NUL. *)
Fixpoint print_text (turns : nat) (idx : nat) (text : list byte)
  (Serial : MockStream.t) : MockStream.t :=
  match turns with
  | O => Serial
  | S turns' =>
      let c := nth idx text x00 in
      if (idx <? 32)%nat && negb (Byte.eqb c x00)
      then print_text turns' (S idx) text (MockStream.write Serial [c])
      else Serial
  end.

(** [bool process(DataCharacter& value)] *)
Definition process_DataCharacter (value : list byte) (Serial : MockStream.t)
  : bool * list byte * MockStream.t :=
  (false, value, print_text 32 0 value Serial).

(** [bool process(B2HDataFrame& frame)] *)
Definition process_B2HDataFrame (frame : list byte) : bool * list byte :=
  (false, frame).

(** [sizeof(Ack)], [sizeof(DataCharacter)], [sizeof(B2HDataFrame)], as the
    static assertions of [spine.h] fix them. *)
Definition sizeof_Ack : nat := 4.
Definition sizeof_DataCharacter : nat := 32.
Definition sizeof_B2HDataFrame : nat := 768.

(** [bool processBody2Head(MessageType msg_type)], on [B2H::recv_buffer]
    and [Serial]. *)
Definition processBody2Head (recv_buffer : list byte)
  (Serial : MockStream.t) (msg_type : Z)
  : option (bool * list byte * MockStream.t) :=
  if msg_type =? MessageType.ack then
    value <- load recv_buffer payload_ofs sizeof_Ack ;;
    let '(modified, value) := process_Ack value in
    recv_buffer <- store recv_buffer payload_ofs value ;;
    Some (modified, recv_buffer, Serial)
  else if msg_type =? MessageType.dataCharacter then
    value <- load recv_buffer payload_ofs sizeof_DataCharacter ;;
    let '(modified, value, Serial) := process_DataCharacter value Serial in
    recv_buffer <- store recv_buffer payload_ofs value ;;
    Some (modified, recv_buffer, Serial)
  else if msg_type =? MessageType.dataFrame then
    frame <- load recv_buffer payload_ofs sizeof_B2HDataFrame ;;
    let '(modified, frame) := process_B2HDataFrame frame in
    recv_buffer <- store recv_buffer payload_ofs frame ;;
    Some (modified, recv_buffer, Serial)
  else
    (* bootFrame, updateFirmware, version, validate, default: not modified *)
    Some (false, recv_buffer, Serial).

(** [void ReceiveAndRewriteB2HMessage(Stream& in, Stream& out)], on
    [B2H::recv_buffer] and [Serial]. *)
Definition ReceiveAndRewriteB2HMessage (recv_buffer : list byte)
  (inp out Serial : MockStream.t)
  : option (list byte * MockStream.t * MockStream.t * MockStream.t) :=
  let payload_size := 0 in
  '(msg_type, payload_size, recv_buffer, inp) <-
     B2H.ReceiveMessage recv_buffer inp payload_size ;;
  '(_, recv_buffer, Serial) <- processBody2Head recv_buffer Serial msg_type ;;
  payload <- load recv_buffer payload_ofs (Z.to_nat payload_size) ;;
  let crc := crc32 (uint32 (-1)) payload in
  recv_buffer <-
    store_u32 recv_buffer (payload_ofs + Z.to_nat payload_size + 4) crc ;;
  data <- load recv_buffer 0 (Z.to_nat payload_size + payload_ofs + 4) ;;
  Some (recv_buffer, inp, MockStream.write out data, Serial).

(** ** Frames on the wire *)

(** A frame as section 6 of the protocol description lays it out: sync, tag,
    type, size, payload, CRC trailer. *)
Definition frame (tag : list byte) (type size : Z) (payload trailer : list byte)
  : list byte :=
  sync :: tag ++ le_encode 2 type ++ le_encode 2 size ++ payload ++ trailer.

Definition tag_H2B : list byte := [x48; x32; x42].
Definition tag_B2H : list byte := [x42; x32; x48].

(** The trailer of a valid frame: the CRC32 of the payload, little endian. *)
Definition crc_trailer (payload : list byte) : list byte :=
  le_encode 4 (crc32 (uint32 (-1)) payload).

(** ** The two directions *)

Inductive Direction := HeadToBody | BodyToHead.

Definition tag_of (d : Direction) : list byte :=
  match d with HeadToBody => tag_H2B | BodyToHead => tag_B2H end.

Definition size_of (d : Direction) : Z -> Z :=
  match d with HeadToBody => H2B.size | BodyToHead => B2H.size end.

Definition populateHeader_of (d : Direction) :=
  match d with
  | HeadToBody => H2B.populateHeader
  | BodyToHead => B2H.populateHeader
  end.

Definition DataCharacterMsg_of (d : Direction) :=
  match d with
  | HeadToBody => H2B.DataCharacterMsg
  | BodyToHead => B2H.DataCharacterMsg
  end.

Definition ReceiveMessage_of (d : Direction) :=
  match d with
  | HeadToBody => H2B.ReceiveMessage
  | BodyToHead => B2H.ReceiveMessage
  end.

(** ** The size tables as the protocol description lists them *)

Definition spec_H2B_table : list (Z * Z) :=
  [ (MessageType.dataCharacter, 32); (MessageType.dataFrame, 64);
    (MessageType.shutdown, 0); (MessageType.updateFirmware, 1028);
    (MessageType.mode, 0); (MessageType.version, 0);
    (MessageType.lights, 16); (MessageType.validate, 0);
    (MessageType.erase, 0) ].

Definition spec_B2H_table : list (Z * Z) :=
  [ (MessageType.dataCharacter, 32); (MessageType.updateFirmware, 32);
    (MessageType.dataFrame, 768); (MessageType.bootFrame, 0);
    (MessageType.ack, 4); (MessageType.version, 40);
    (MessageType.validate, 0) ].

Definition spec_table (d : Direction) : list (Z * Z) :=
  match d with
  | HeadToBody => spec_H2B_table
  | BodyToHead => spec_B2H_table
  end.

Fixpoint table_lookup (t : Z) (table : list (Z * Z)) : option Z :=
  match table with
  | [] => None
  | (k, n) :: table' => if t =? k then Some n else table_lookup t table'
  end.

(** Whether a call of [ReceiveMessage] returned a message, that is a type
    other than [(MessageType)-1]. *)
Definition received (r : option (Z * Z * list byte * MockStream.t)) : bool :=
  match r with
  | Some (message_type, _, _, _) => negb (message_type =? invalid)
  | None => false
  end.

(** The type and the payload size a call of [ReceiveMessage] hands back. *)
Definition result_of (r : option (Z * Z * list byte * MockStream.t))
  : option (Z * Z) :=
  match r with
  | Some (message_type, payload_size, _, _) => Some (message_type, payload_size)
  | None => None
  end.

(** ** Concrete texts, payloads, frames and buffers *)

(** The string literals "Hi" and "Hello", with their terminator. *)
Definition text_Hi : list byte := [x48; x69; x00].
Definition text_Hello : list byte := [x48; x65; x6c; x6c; x6f; x00].

(** 'H', 'i' and 30 zero bytes. *)
Definition payload_Hi : list byte := [x48; x69] ++ repeat x00 30.

(** [B2H::recv_buffer] after [B2H::DataCharacterMsg(text, numBytes)] on the
    zero-initialised buffer. *)
Definition buffer_after_text (text : list byte) (numBytes : Z) : list byte :=
  match B2H.DataCharacterMsg recv_buffer_init text numBytes with
  | Some (recv_buffer, _) => recv_buffer
  | None => recv_buffer_init
  end.

(** A Body->Head acknowledge with value 0 and a Head->Body lights frame
    with all lights off, each with the CRC of its payload as trailer. *)
Definition payload_ack0 : list byte := repeat x00 4.
Definition frame_ack0 : list byte :=
  frame tag_B2H MessageType.ack 4 payload_ack0 (crc_trailer payload_ack0).
Definition payload_lights0 : list byte := repeat x00 16.
Definition frame_lights0 : list byte :=
  frame tag_H2B MessageType.lights 16 payload_lights0
    (crc_trailer payload_lights0).

(** The Body->Head text frame "Hi", once with the CRC of its payload as
    trailer, once with a trailer of four zero bytes. *)
Definition frame_Hi : list byte :=
  frame tag_B2H MessageType.dataCharacter 32 payload_Hi
    (crc_trailer payload_Hi).
Definition frame_Hi_bad_trailer : list byte :=
  frame tag_B2H MessageType.dataCharacter 32 payload_Hi (repeat x00 4).

(** The stream [s] once [n] more bytes have been read. *)
Definition skip (s : MockStream.t) (n : nat) : MockStream.t :=
  MockStream.mk (MockStream.buffer s) (MockStream.readIndex s + n).

(** What [ReceiveMessage] does once the sync byte, the tag and the four
    bytes of type and size are in the buffer (the text of the function from
    "lookup the expected size" on); used to state the lemmas below. *)
Definition ReceiveMessage_tail (size : Z -> Z) (recv_buffer : list byte)
  (s : MockStream.t) (message_type payload_size : Z)
  : option (Z * Z * list byte * MockStream.t) :=
  let expected_size := size message_type in
  if (expected_size <? 0) || negb (expected_size =? payload_size)
  then Some (invalid, 0, recv_buffer, s) else
  let '(body, s) := MockStream.readBytes s (Z.to_nat (payload_size + 4)) in
  recv_buffer <- store recv_buffer payload_ofs body ;;
  payload <- load recv_buffer payload_ofs (Z.to_nat payload_size) ;;
  let crc := crc32 (uint32 (-1)) payload in
  crc_in_buffer <-
    load_u32 recv_buffer (payload_ofs + Z.to_nat payload_size + 4) ;;
  if negb (crc =? crc_in_buffer)
  then Some (invalid, 0, recv_buffer, s)
  else Some (message_type, payload_size, recv_buffer, s).

(** ** The stream, byte by byte *)

(** [clear()] *)
Definition MockStream_clear (s : MockStream.t) : MockStream.t :=
  MockStream.mk [] 0.

(** The read position never passes the end of the content. *)
Definition stream_ok (s : MockStream.t) : Prop :=
  (MockStream.readIndex s <= length (MockStream.buffer s))%nat.

(** The [for] loop of [readBytes(outBuffer, size)], turn by turn, with the
    array [outBuffer] points into: turn [i] runs while [i < size] and
    [readIndex < buffer.size()], and stores [buffer[readIndex++]] at
    [outBuffer[i]], that is at offset [ofs + i] of the array. *)
Fixpoint readBytes_loop (turns i size : nat) (s : MockStream.t)
  (out : list byte) (ofs : nat) : option (list byte * MockStream.t) :=
  match turns with
  | O => Some (out, s)
  | S turns' =>
      if (i <? size)%nat &&
         (MockStream.readIndex s <? length (MockStream.buffer s))%nat
      then
        b <- nth_error (MockStream.buffer s) (MockStream.readIndex s) ;;
        out <- store out (ofs + i) [b] ;;
        readBytes_loop turns' (S i) size
          (MockStream.mk (MockStream.buffer s) (S (MockStream.readIndex s)))
          out ofs
      else Some (out, s)
  end.

Definition readBytes_into (s : MockStream.t) (out : list byte) (ofs : nat)
  (size : nat) : option (list byte * MockStream.t) :=
  readBytes_loop size 0 size s out ofs.

(** The characters of a text field up to its first NUL. *)
Fixpoint until_NUL (text : list byte) : list byte :=
  match text with
  | [] => []
  | c :: text' => if Byte.eqb c x00 then [] else c :: until_NUL text'
  end.

(** The four bytes [ReceiveMessage] waits for, in order. *)
Definition start_of (d : Direction) : list byte := sync :: tag_of d.

Definition opposite (d : Direction) : Direction :=
  match d with HeadToBody => BodyToHead | BodyToHead => HeadToBody end.

(** ** The decoders of the unit tests ([tests/spine-tests.cpp]) *)

(** Conversion of an integer to the 32-bit [int]. *)
Definition to_int (z : Z) : Z := (z + 2 ^ 31) mod 2 ^ 32 - 2 ^ 31.

(** [LE::uint16(buffer)], with [buffer] at offset [ofs] of an array: the
    shift is done on the byte promoted to [int], the result is assigned
    to a [uint16_t]. *)
Definition LE_uint16 (buffer : list byte) (ofs : nat) : option Z :=
  b0 <- nth_error buffer ofs ;;
  b1 <- nth_error buffer (ofs + 1) ;;
  let Ret := uint16 (byte_to_Z b0) in
  Some (uint16 (Z.lor Ret (to_int (Z.shiftl (uint16 (byte_to_Z b1)) 8)))).

(** [LE::uint32(buffer)]: [uint16(buffer+2) << 16] is an [int], converted
    to [uint32_t] for the [|=]. *)
Definition LE_uint32 (buffer : list byte) (ofs : nat) : option Z :=
  lo <- LE_uint16 buffer ofs ;;
  hi <- LE_uint16 buffer (ofs + 2) ;;
  let Ret := uint32 lo in
  Some (uint32 (Z.lor Ret (uint32 (to_int (Z.shiftl hi 16))))).

(** * Properties *)

(** ** Bytes and little-endian words *)

Lemma byte_to_Z_range (b : byte) : 0 <= byte_to_Z b < 256.
Proof.
  unfold byte_to_Z.
  pose proof (Byte.to_N_bounded b) as H. lia.
Qed.

Lemma uint8_byte_to_Z (b : byte) : uint8 (byte_to_Z b) = b.
Proof.
  unfold uint8.
  rewrite Z.mod_small by apply byte_to_Z_range.
  unfold byte_to_Z. rewrite N2Z.id, Byte.of_to_N. reflexivity.
Qed.

Lemma byte_to_Z_uint8 (z : Z) : byte_to_Z (uint8 z) = z mod 256.
Proof.
  unfold uint8, byte_to_Z.
  assert (Hr : 0 <= z mod 256 < 256) by (apply Z.mod_pos_bound; lia).
  destruct (Byte.of_N (Z.to_N (z mod 256))) as [b|] eqn:E.
  - apply Byte.to_of_N in E. rewrite E. lia.
  - apply Byte.of_N_None_iff in E. lia.
Qed.

Lemma byte_eqb_refl (b : byte) : Byte.eqb b b = true.
Proof. apply Byte.byte_dec_lb. reflexivity. Qed.

Lemma byte_eqb_neq (b c : byte) : b <> c -> Byte.eqb b c = false.
Proof.
  intros Hn. destruct (Byte.eqb b c) eqn:E; [|reflexivity].
  apply Byte.byte_dec_bl in E. contradiction.
Qed.

Lemma le_decode_encode_2 (z : Z) :
  0 <= z < 2 ^ 16 -> le_decode (le_encode 2 z) = z.
Proof.
  intros Hz. cbn [le_encode le_decode].
  rewrite !byte_to_Z_uint8.
  change (2 ^ 16) with 65536 in Hz.
  rewrite (Z.mod_small (z / 256)) by (split; [apply Z.div_pos|apply Z.div_lt_upper_bound]; lia).
  pose proof (Z.div_mod z 256). lia.
Qed.

Lemma length_le_encode (n : nat) (z : Z) : length (le_encode n z) = n.
Proof. revert z. induction n; intros z; simpl; [|rewrite IHn]; reflexivity. Qed.

Lemma le_decode_range (bs : list byte) :
  0 <= le_decode bs < 256 ^ Z.of_nat (length bs).
Proof.
  induction bs as [|b bs IH].
  - simpl. lia.
  - cbn [le_decode length]. rewrite Nat2Z.inj_succ, Z.pow_succ_r by lia.
    pose proof (byte_to_Z_range b). nia.
Qed.

(** ** Lists, loads and stores *)

Lemma firstn_length_app {A : Type} (l r : list A) :
  firstn (length l) (l ++ r) = l.
Proof. induction l; simpl; [|rewrite IHl]; reflexivity. Qed.

Lemma skipn_length_app {A : Type} (l r : list A) :
  skipn (length l) (l ++ r) = r.
Proof. induction l; simpl; auto. Qed.

Lemma load_app (pre bs post : list byte) :
  load (pre ++ bs ++ post) (length pre) (length bs) = Some bs.
Proof.
  unfold load. rewrite !length_app.
  replace (length pre + length bs <=? _)%nat with true
    by (symmetry; apply Nat.leb_le; lia).
  rewrite skipn_length_app, firstn_length_app. reflexivity.
Qed.

Lemma store_app (pre old post bs : list byte) :
  length old = length bs ->
  store (pre ++ old ++ post) (length pre) bs = Some (pre ++ bs ++ post).
Proof.
  intros Hl. unfold store. rewrite !length_app.
  replace (length pre + length bs <=? _)%nat with true
    by (symmetry; apply Nat.leb_le; lia).
  rewrite firstn_length_app.
  replace (skipn (length pre + length bs) (pre ++ old ++ post)) with post;
    [reflexivity|].
  rewrite <- Hl, <- length_app, (app_assoc pre old post), skipn_length_app.
  reflexivity.
Qed.

Lemma load_at (pre bs post : list byte) (ofs n : nat) :
  ofs = length pre -> n = length bs ->
  load (pre ++ bs ++ post) ofs n = Some bs.
Proof. intros -> ->. apply load_app. Qed.

Lemma store_at (pre old post bs : list byte) (ofs : nat) :
  ofs = length pre -> length old = length bs ->
  store (pre ++ old ++ post) ofs bs = Some (pre ++ bs ++ post).
Proof. intros ->. apply store_app. Qed.

Lemma load_prefix (bs post : list byte) (n : nat) :
  n = length bs -> load (bs ++ post) 0 n = Some bs.
Proof. intros ->. apply (load_app [] bs post). Qed.

Lemma length_load (buf bs : list byte) (ofs n : nat) :
  load buf ofs n = Some bs -> length bs = n.
Proof.
  unfold load. destruct (ofs + n <=? length buf)%nat eqn:E; [|discriminate].
  apply Nat.leb_le in E. intros H.
  assert (Hbs : bs = firstn n (skipn ofs buf)) by congruence.
  rewrite Hbs, length_firstn, length_skipn. lia.
Qed.

Lemma length_store (buf bs buf' : list byte) (ofs : nat) :
  store buf ofs bs = Some buf' -> length buf' = length buf.
Proof.
  unfold store. destruct (ofs + length bs <=? length buf)%nat eqn:E;
    [|discriminate].
  apply Nat.leb_le in E. intros [= <-].
  rewrite !length_app, length_firstn, length_skipn. lia.
Qed.

Lemma store_load_same (buf bs : list byte) (ofs n : nat) :
  load buf ofs n = Some bs -> store buf ofs bs = Some buf.
Proof.
  unfold load, store.
  destruct (ofs + n <=? length buf)%nat eqn:E; [|discriminate].
  apply Nat.leb_le in E. intros [= <-].
  assert (Hl : length (firstn n (skipn ofs buf)) = n)
    by (rewrite length_firstn, length_skipn; lia).
  rewrite Hl. apply Nat.leb_le in E. rewrite E. f_equal.
  rewrite (Nat.add_comm ofs n), <- skipn_skipn, firstn_skipn.
  apply firstn_skipn.
Qed.

(** ** The stream *)

Lemma remaining_skip (s : MockStream.t) (n : nat) :
  MockStream.remaining (skip s n) = skipn n (MockStream.remaining s).
Proof.
  unfold MockStream.remaining, skip. simpl.
  rewrite skipn_skipn, Nat.add_comm. reflexivity.
Qed.

Lemma skip_skip (s : MockStream.t) (n m : nat) :
  skip (skip s n) m = skip s (n + m).
Proof. unfold skip. simpl. rewrite Nat.add_assoc. reflexivity. Qed.

Lemma remaining_setBuffer (data : list byte) :
  MockStream.remaining (MockStream.setBuffer data) = data.
Proof. reflexivity. Qed.

Lemma read_remaining (s : MockStream.t) (b : byte) (r : list byte) :
  MockStream.remaining s = b :: r ->
  MockStream.read s = (byte_to_Z b, skip s 1).
Proof.
  unfold MockStream.remaining, MockStream.read, skip. intros H.
  rewrite <- hd_error_skipn, H. simpl. rewrite Nat.add_1_r. reflexivity.
Qed.

Lemma read_exhausted (s : MockStream.t) :
  MockStream.remaining s = [] -> MockStream.read s = (-1, s).
Proof.
  unfold MockStream.remaining, MockStream.read. intros H.
  rewrite <- hd_error_skipn, H. reflexivity.
Qed.

Lemma readBytes_remaining (s : MockStream.t) (bs r : list byte) :
  MockStream.remaining s = bs ++ r ->
  MockStream.readBytes s (length bs) = (bs, skip s (length bs)).
Proof.
  unfold MockStream.remaining, MockStream.readBytes, skip. intros H.
  rewrite H, firstn_length_app. reflexivity.
Qed.

(** ** [ReceiveMessage], step by step *)

(** Evaluates the stores and loads at literal offsets of a buffer whose
    first cells are known. *)
Ltac run_store :=
  cbn [store load length Nat.add Nat.leb firstn skipn app bind].

Section ChannelFacts.

Variables tag1 tag2 tag3 : byte.
Variable size : Z -> Z.

Lemma waitFor_read (c : byte) (buf : list byte) (s : MockStream.t)
  (offset : nat) (b : byte) (r : list byte) :
  MockStream.remaining s = b :: r ->
  waitFor c buf s offset =
  (buf' <- store buf offset [b] ;;
   if Byte.eqb b c then Some (true, buf', skip s 1, S offset)
   else Some (false, buf', skip s 1, offset)).
Proof.
  intros H. unfold waitFor.
  rewrite (read_remaining s b r H), uint8_byte_to_Z. reflexivity.
Qed.

(** A first byte that is not the sync byte: the call stores it at
    [recv_buffer[0]], consumes it alone and returns [(MessageType)-1]
    without assigning [payload_size]. *)
Lemma ReceiveMessage_no_sync (buf : list byte) (s : MockStream.t)
  (ps0 : Z) (g x0 : byte) (buf1 r : list byte) :
  buf = x0 :: buf1 ->
  MockStream.remaining s = g :: r ->
  g <> sync ->
  ReceiveMessage tag1 tag2 tag3 size buf s ps0 =
  Some (invalid, ps0, g :: buf1, skip s 1).
Proof.
  intros -> Hs Hg. unfold ReceiveMessage.
  rewrite (waitFor_read _ _ _ _ _ _ Hs).
  run_store. rewrite (byte_eqb_neq _ _ Hg). reflexivity.
Qed.

(** Sync byte, tag and the four bytes of type and size are read into the
    first eight bytes of the buffer. *)
Lemma ReceiveMessage_header (buf : list byte) (s : MockStream.t) (ps0 : Z)
  (a b c d : byte) (rest : list byte) :
  (8 <= length buf)%nat ->
  MockStream.remaining s =
    sync :: tag1 :: tag2 :: tag3 :: a :: b :: c :: d :: rest ->
  ReceiveMessage tag1 tag2 tag3 size buf s ps0 =
  ReceiveMessage_tail size
    ([sync; tag1; tag2; tag3; a; b; c; d] ++ skipn 8 buf) (skip s 8)
    (le_decode [a; b]) (le_decode [c; d]).
Proof.
  intros Hlen Hs.
  do 8 (destruct buf as [|? buf]; [simpl in Hlen; lia|]).
  clear Hlen. unfold ReceiveMessage.
  rewrite (waitFor_read _ _ _ _ _ _ Hs).
  run_store. rewrite byte_eqb_refl. cbn [bind negb].
  assert (H1 : MockStream.remaining (skip s 1) =
               tag1 :: tag2 :: tag3 :: a :: b :: c :: d :: rest)
    by (rewrite remaining_skip, Hs; reflexivity).
  rewrite (waitFor_read _ _ _ _ _ _ H1).
  run_store. rewrite byte_eqb_refl, skip_skip. cbn [bind negb Nat.add].
  assert (H2 : MockStream.remaining (skip s 2) =
               tag2 :: tag3 :: a :: b :: c :: d :: rest)
    by (rewrite remaining_skip, Hs; reflexivity).
  rewrite (waitFor_read _ _ _ _ _ _ H2).
  run_store. rewrite byte_eqb_refl, skip_skip. cbn [bind negb Nat.add].
  assert (H3 : MockStream.remaining (skip s 3) =
               tag3 :: a :: b :: c :: d :: rest)
    by (rewrite remaining_skip, Hs; reflexivity).
  rewrite (waitFor_read _ _ _ _ _ _ H3).
  run_store. rewrite byte_eqb_refl, skip_skip. cbn [bind negb Nat.add].
  assert (H4 : MockStream.remaining (skip s 4) = [a; b; c; d] ++ rest)
    by (rewrite remaining_skip, Hs; reflexivity).
  pose proof (readBytes_remaining _ _ _ H4) as Hr.
  cbn [length] in Hr. rewrite Hr, skip_skip. clear Hr.
  cbn [Nat.add].
  unfold load_u16, load, message_type_ofs, payload_size_ofs.
  run_store. reflexivity.
Qed.

Lemma ReceiveMessage_tail_reject (buf : list byte) (s : MockStream.t)
  (mt ps : Z) :
  (size mt <? 0) || negb (size mt =? ps) = true ->
  ReceiveMessage_tail size buf s mt ps = Some (invalid, 0, buf, s).
Proof. intros H. unfold ReceiveMessage_tail. rewrite H. reflexivity. Qed.

(** Type and size agree with the table: payload and trailer are read to
    offsets 8 and 8 + size, and the CRC of the payload is compared with
    the word [stale] that the buffer already held at offset
    8 + size + 4. *)
Lemma ReceiveMessage_tail_frame (hdr old : list byte) (s : MockStream.t)
  (mt ps : Z) (payload trailer rest : list byte) :
  length hdr = payload_ofs ->
  MockStream.remaining s = payload ++ trailer ++ rest ->
  size mt = ps ->
  Z.of_nat (length payload) = ps ->
  length trailer = 4%nat ->
  (length payload + 8 <= length old)%nat ->
  let stale := firstn 4 (skipn (length payload + 4) old) in
  let buf' := hdr ++ payload ++ trailer ++ skipn (length payload + 4) old in
  let s' := skip s (length payload + 4) in
  ReceiveMessage_tail size (hdr ++ old) s mt ps =
  if crc32 (uint32 (-1)) payload =? le_decode stale
  then Some (mt, ps, buf', s') else Some (invalid, 0, buf', s').
Proof.
  intros Hh Hs Hsz Hp Ht Hold stale buf' s'.
  unfold ReceiveMessage_tail. rewrite Hsz, Z.eqb_refl.
  replace (ps <? 0) with false by (symmetry; apply Z.ltb_ge; lia).
  cbn [orb negb].
  replace (Z.to_nat (ps + 4)) with (length (payload ++ trailer))
    by (rewrite length_app; lia).
  rewrite app_assoc in Hs.
  rewrite (readBytes_remaining _ _ _ Hs).
  rewrite <- (firstn_skipn (length payload + 4) old) at 1.
  rewrite (store_at hdr _ _ (payload ++ trailer))
    by (rewrite ?length_firstn, ?length_app; unfold payload_ofs in *; lia).
  cbn [bind]. rewrite <- app_assoc.
  rewrite (load_at hdr payload)
    by (unfold payload_ofs in *; lia).
  cbn [bind]. unfold load_u32.
  set (tl := skipn (length payload + 4) old).
  assert (Htl : (4 <= length tl)%nat)
    by (unfold tl; rewrite length_skipn; lia).
  rewrite <- (firstn_skipn 4 tl) at 1.
  replace (hdr ++ payload ++ trailer ++ firstn 4 tl ++ skipn 4 tl)
    with ((hdr ++ payload ++ trailer) ++ firstn 4 tl ++ skipn 4 tl)
    by (rewrite <- !app_assoc; reflexivity).
  rewrite (load_at (hdr ++ payload ++ trailer) (firstn 4 tl))
    by (rewrite ?length_firstn, ?length_app; unfold payload_ofs in *; lia).
  cbn [bind]. rewrite length_app, Ht.
  subst stale buf' s' tl.
  destruct (crc32 (uint32 (-1)) payload =? le_decode _); reflexivity.
Qed.

End ChannelFacts.

(** ** The size tables *)

Lemma H2B_size_table (t : Z) :
  H2B.size t =
  match table_lookup t spec_H2B_table with Some n => n | None => -1 end.
Proof.
  unfold H2B.size, spec_H2B_table, table_lookup.
  repeat match goal with |- context [?a =? ?b] => destruct (a =? b) end;
    reflexivity.
Qed.

Lemma B2H_size_table (t : Z) :
  B2H.size t =
  match table_lookup t spec_B2H_table with Some n => n | None => -1 end.
Proof.
  unfold B2H.size, spec_B2H_table, table_lookup.
  repeat match goal with |- context [?a =? ?b] => destruct (a =? b) end;
    reflexivity.
Qed.

Lemma size_of_table (d : Direction) (t : Z) :
  size_of d t =
  match table_lookup t (spec_table d) with Some n => n | None => -1 end.
Proof. destruct d; [apply H2B_size_table|apply B2H_size_table]. Qed.

Lemma B2H_size_cases (t : Z) :
  B2H.size t = -1 \/ 0 <= B2H.size t <= 768.
Proof.
  unfold B2H.size.
  repeat match goal with |- context [?a =? ?b] => destruct (a =? b) end; lia.
Qed.

Lemma ReceiveMessage_of_eq (d : Direction) :
  exists t1 t2 t3,
    tag_of d = [t1; t2; t3] /\
    ReceiveMessage_of d = ReceiveMessage t1 t2 t3 (size_of d).
Proof.
  destruct d; [exists x48, x32, x42|exists x42, x32, x48];
    split; reflexivity.
Qed.

(** C5. The Head->Body and Body->Head size tables of the code are exactly
    the tables of the protocol description (any other type code yields the
    value -1), and a frame with the right sync byte and tag whose 16-bit
    type code is absent from the table of its direction is rejected with
    [(MessageType)-1] and payload size 0, whatever declared size, payload
    and trailer follow; nothing after the eight header bytes is read. *)
Theorem size_tables_and_type_rejection :
  (forall t, H2B.size t =
     match table_lookup t spec_H2B_table with Some n => n | None => -1 end) /\
  (forall t, B2H.size t =
     match table_lookup t spec_B2H_table with Some n => n | None => -1 end) /\
  (forall d buf s ps0 t sz rest,
     length buf = recv_buffer_len ->
     0 <= t < 2 ^ 16 ->
     table_lookup t (spec_table d) = None ->
     MockStream.remaining s =
       sync :: tag_of d ++ le_encode 2 t ++ le_encode 2 sz ++ rest ->
     exists buf' s',
       ReceiveMessage_of d buf s ps0 = Some (invalid, 0, buf', s') /\
       MockStream.remaining s' = rest).
Proof.
  split; [exact H2B_size_table|]. split; [exact B2H_size_table|].
  intros d buf s ps0 t sz rest Hlen Ht Hnone Hs.
  destruct (ReceiveMessage_of_eq d) as (t1 & t2 & t3 & Htag & ->).
  rewrite Htag in Hs. cbn [app le_encode] in Hs.
  rewrite (ReceiveMessage_header _ _ _ _ _ _ _ _ _ _ _ rest)
    by (try exact Hs; rewrite Hlen; unfold recv_buffer_len; simpl; lia).
  change [uint8 t; uint8 (t / 256)] with (le_encode 2 t).
  rewrite (le_decode_encode_2 t Ht).
  rewrite ReceiveMessage_tail_reject.
  - eexists _, _. split; [reflexivity|].
    rewrite remaining_skip, Hs. reflexivity.
  - rewrite size_of_table, Hnone. reflexivity.
Qed.

(** A type code absent from both tables ('vs'), in a Body->Head frame whose
    declared size, payload and trailer are those of an acknowledge. *)
Lemma size_tables_and_type_rejection_witness :
  exists buf' s',
    B2H.ReceiveMessage recv_buffer_init
      (MockStream.setBuffer
         (frame tag_B2H MessageType.VS 4 [x01; x02; x03; x04]
            (crc_trailer [x01; x02; x03; x04]))) 0
    = Some (invalid, 0, buf', s') /\
    MockStream.remaining s' =
      [x01; x02; x03; x04] ++ crc_trailer [x01; x02; x03; x04].
Proof.
  apply (proj2 (proj2 size_tables_and_type_rejection) BodyToHead
           recv_buffer_init _ 0 MessageType.VS 4).
  - reflexivity.
  - unfold MessageType.VS. lia.
  - reflexivity.
  - reflexivity.
Defined.

(** ** Header population *)

Lemma populateHeader_of_eq (d : Direction) :
  exists t1 t2 t3,
    tag_of d = [t1; t2; t3] /\
    populateHeader_of d = populateHeader t1 t2 t3 (size_of d).
Proof.
  destruct d; [exists x48, x32, x42|exists x42, x32, x48];
    split; reflexivity.
Qed.

(** What [populateHeader] writes, for any type: the eight header bytes,
    the rest of the buffer untouched. *)
Lemma populateHeader_writes (t1 t2 t3 : byte) (size : Z -> Z)
  (buffer : list byte) (t : Z) :
  (8 <= length buffer)%nat ->
  populateHeader t1 t2 t3 size buffer t =
  Some (sync :: t1 :: t2 :: t3 ::
          le_encode 2 (uint16 t) ++
          le_encode 2 (uint16 (to_size_t (size t))) ++ skipn 8 buffer,
        to_size_t (size t)).
Proof.
  intros Hlen.
  do 8 (destruct buffer as [|? buffer]; [simpl in Hlen; lia|]).
  unfold populateHeader, store_u16, message_type_ofs, payload_size_ofs.
  cbn [le_encode]. run_store. reflexivity.
Qed.

(** C9. For a message type absent from the size table of the direction,
    [populateHeader] completes normally: it writes the sync byte, the tag
    and the type, and the 16-bit size field receives 0xFFFF, the table's -1
    wrapped modulo 2^16; the value returned is -1 converted to [size_t]. *)
Theorem populateHeader_unknown_type_wraps :
  forall d buffer t,
    (8 <= length buffer)%nat ->
    table_lookup t (spec_table d) = None ->
    exists buffer',
      populateHeader_of d buffer t = Some (buffer', 2 ^ 32 - 1) /\
      firstn 4 buffer' = xaa :: tag_of d /\
      load_u16 buffer' message_type_ofs = Some (t mod 2 ^ 16) /\
      load buffer' payload_size_ofs 2 = Some [xff; xff] /\
      load_u16 buffer' payload_size_ofs = Some 0xFFFF /\
      skipn 8 buffer' = skipn 8 buffer.
Proof.
  intros d buffer t Hlen Hnone.
  destruct (populateHeader_of_eq d) as (t1 & t2 & t3 & Htag & ->).
  rewrite (populateHeader_writes _ _ _ _ _ _ Hlen), Htag.
  rewrite size_of_table, Hnone.
  change (to_size_t (-1)) with (2 ^ 32 - 1).
  change (le_encode 2 (uint16 (2 ^ 32 - 1))) with [xff; xff].
  eexists. split; [reflexivity|].
  pose proof (le_decode_encode_2 (uint16 t)) as Hdec.
  unfold uint16 in *. cbn [le_encode] in *.
  split; [reflexivity|].
  unfold load_u16, load, message_type_ofs, payload_size_ofs.
  run_store.
  repeat split; try reflexivity.
  f_equal. apply Hdec. apply Z.mod_pos_bound. lia.
Qed.

(** [ack] is not a Head->Body type; the 12-byte buffer is the one of the
    unit tests of [populateHeader]. *)
Lemma populateHeader_unknown_type_wraps_witness :
  exists buffer',
    H2B.populateHeader (repeat x00 12) MessageType.ack =
      Some (buffer', 2 ^ 32 - 1) /\
    firstn 4 buffer' = xaa :: tag_H2B /\
    load_u16 buffer' message_type_ofs = Some (MessageType.ack mod 2 ^ 16) /\
    load buffer' payload_size_ofs 2 = Some [xff; xff] /\
    load_u16 buffer' payload_size_ofs = Some 0xFFFF /\
    skipn 8 buffer' = skipn 8 (repeat x00 12).
Proof.
  apply (populateHeader_unknown_type_wraps HeadToBody (repeat x00 12)
           MessageType.ack).
  - simpl. lia.
  - reflexivity.
Defined.

(** ** The hooks of the listener *)

Lemma load_in_bounds (buf : list byte) (ofs n : nat) :
  (ofs + n <= length buf)%nat ->
  load buf ofs n = Some (firstn n (skipn ofs buf)).
Proof.
  intros H. unfold load. apply Nat.leb_le in H. rewrite H. reflexivity.
Qed.

Lemma hook_round_trip (buf : list byte) (n : nat) :
  (payload_ofs + n <= length buf)%nat ->
  exists value,
    load buf payload_ofs n = Some value /\
    store buf payload_ofs value = Some buf.
Proof.
  intros H. exists (firstn n (skipn payload_ofs buf)).
  split; [apply load_in_bounds; exact H|].
  apply (store_load_same buf _ payload_ofs n), load_in_bounds, H.
Qed.

Lemma processBody2Head_keeps_buffer (buf : list byte)
  (Serial : MockStream.t) (t : Z) :
  (payload_ofs + sizeof_B2HDataFrame <= length buf)%nat ->
  exists Serial',
    processBody2Head buf Serial t = Some (false, buf, Serial').
Proof.
  intros Hlen. unfold processBody2Head.
  unfold payload_ofs, sizeof_B2HDataFrame in Hlen.
  destruct (t =? MessageType.ack).
  { destruct (hook_round_trip buf sizeof_Ack) as (v & -> & Hst);
      [unfold payload_ofs, sizeof_Ack; lia|].
    cbn [bind process_Ack]. rewrite Hst. eexists. reflexivity. }
  destruct (t =? MessageType.dataCharacter).
  { destruct (hook_round_trip buf sizeof_DataCharacter) as (v & -> & Hst);
      [unfold payload_ofs, sizeof_DataCharacter; lia|].
    cbn [bind process_DataCharacter]. rewrite Hst. eexists. reflexivity. }
  destruct (t =? MessageType.dataFrame).
  { destruct (hook_round_trip buf sizeof_B2HDataFrame) as (v & -> & Hst);
      [unfold payload_ofs, sizeof_B2HDataFrame; lia|].
    cbn [bind process_B2HDataFrame]. rewrite Hst. eexists. reflexivity. }
  eexists. reflexivity.
Qed.

(** C10. Whatever the message type, [processBody2Head] returns false and
    leaves [B2H::recv_buffer] byte for byte as it was: the hooks for [ack],
    [dataCharacter] and [dataFrame] only observe the payload (the second
    writes the text to [Serial]), and any other type goes to "not
    modified" without touching the buffer. *)
Theorem processBody2Head_not_modified :
  forall recv_buffer Serial msg_type,
    length recv_buffer = recv_buffer_len ->
    exists Serial',
      processBody2Head recv_buffer Serial msg_type =
      Some (false, recv_buffer, Serial').
Proof.
  intros buf Serial t Hlen.
  apply processBody2Head_keeps_buffer.
  rewrite Hlen. vm_compute. lia.
Qed.

(** The data-character hook on the zero-initialised buffer. *)
Lemma processBody2Head_not_modified_witness :
  exists Serial',
    processBody2Head recv_buffer_init MockStream.empty
      MessageType.dataCharacter =
    Some (false, recv_buffer_init, Serial').
Proof.
  apply (processBody2Head_not_modified recv_buffer_init MockStream.empty
           MessageType.dataCharacter).
  reflexivity.
Defined.

(** ** The relay *)

(** A well-formed Body->Head frame at the head of the inbound stream:
    [ReceiveMessage] returns a message exactly when the type is in the
    table with the declared size and the CRC of the payload equals the word
    already in the buffer at offset 8 + size + 4; the buffer then holds the
    frame in its first size + 12 bytes. *)
Lemma B2H_ReceiveMessage_frame (buf : list byte) (s : MockStream.t)
  (ps0 type size : Z) (payload trailer rest : list byte) :
  length buf = recv_buffer_len ->
  0 <= type < 2 ^ 16 ->
  0 <= size < 2 ^ 16 ->
  Z.of_nat (length payload) = size ->
  length trailer = 4%nat ->
  MockStream.remaining s = frame tag_B2H type size payload trailer ++ rest ->
  received (B2H.ReceiveMessage buf s ps0) = true ->
  B2H.size type = size /\
  crc32 (uint32 (-1)) payload =
    le_decode (firstn 4 (skipn (payload_ofs + length payload + 4) buf)) /\
  B2H.ReceiveMessage buf s ps0 =
    Some (type, size,
          frame tag_B2H type size payload trailer ++
            skipn (payload_ofs + length payload + 4) buf,
          skip s (payload_ofs + length payload + 4)).
Proof.
  intros Hlen Ht Hsz Hp Htr Hs Hrecv.
  change recv_buffer_len with 1040%nat in Hlen.
  unfold frame, tag_B2H in Hs. cbn [app le_encode] in Hs.
  rewrite <- !app_assoc in Hs.
  unfold B2H.ReceiveMessage in *.
  assert (H8 : (8 <= length buf)%nat) by lia.
  rewrite (ReceiveMessage_header x42 x32 x48 B2H.size buf s ps0
             _ _ _ _ _ H8 Hs) in Hrecv |- *.
  pose proof (le_decode_encode_2 type Ht) as Hdt.
  pose proof (le_decode_encode_2 size Hsz) as Hds.
  cbn [le_encode] in Hdt, Hds.
  rewrite Hdt, Hds in Hrecv |- *. clear Hdt Hds.
  destruct ((B2H.size type <? 0) || negb (B2H.size type =? size)) eqn:Echk.
  { rewrite ReceiveMessage_tail_reject in Hrecv by exact Echk.
    discriminate Hrecv. }
  apply orb_false_iff in Echk. destruct Echk as [_ Echk].
  apply negb_false_iff, Z.eqb_eq in Echk.
  assert (Hrem : MockStream.remaining (skip s 8) = payload ++ trailer ++ rest)
    by (rewrite remaining_skip, Hs; reflexivity).
  assert (Hfit : (length payload + 8 <= length (skipn 8 buf))%nat).
  { rewrite length_skipn, Hlen.
    destruct (B2H_size_cases type); lia. }
  pose proof (ReceiveMessage_tail_frame B2H.size
                [sync; x42; x32; x48; uint8 type; uint8 (type / 256);
                 uint8 size; uint8 (size / 256)]
                (skipn 8 buf) (skip s 8) type size payload trailer rest
                eq_refl Hrem Echk Hp Htr Hfit) as Htail.
  cbv zeta in Htail.
  rewrite skipn_skipn, skip_skip in Htail.
  replace (length payload + 4 + 8)%nat
    with (payload_ofs + length payload + 4)%nat in Htail
    by (unfold payload_ofs; lia).
  replace (8 + (length payload + 4))%nat
    with (payload_ofs + length payload + 4)%nat in Htail
    by (unfold payload_ofs; lia).
  rewrite Htail in Hrecv |- *.
  destruct (crc32 (uint32 (-1)) payload =? le_decode _) eqn:Ecrc;
    [|discriminate Hrecv].
  apply Z.eqb_eq in Ecrc.
  split; [exact Echk|]. split; [exact Ecrc|].
  unfold frame, tag_B2H. cbn [app le_encode].
  rewrite <- !app_assoc. reflexivity.
Qed.

Lemma length_frame (tag : list byte) (type size : Z)
  (payload trailer : list byte) :
  length tag = 3%nat ->
  length (frame tag type size payload trailer) =
  (payload_ofs + length payload + length trailer)%nat.
Proof.
  intros Htag. unfold frame, payload_ofs. cbn [length].
  rewrite !length_app, !length_le_encode, Htag. lia.
Qed.

Lemma frame_payload (tag : list byte) (type size : Z)
  (payload trailer post : list byte) :
  length tag = 3%nat ->
  load (frame tag type size payload trailer ++ post) payload_ofs
    (length payload) = Some payload.
Proof.
  intros Htag. unfold frame.
  replace ((sync :: tag ++ le_encode 2 type ++ le_encode 2 size ++
              payload ++ trailer) ++ post)
    with ((sync :: tag ++ le_encode 2 type ++ le_encode 2 size) ++
            payload ++ trailer ++ post)
    by (cbn [app]; rewrite <- !app_assoc; reflexivity).
  apply load_at; [|reflexivity].
  cbn [length]. rewrite !length_app, !length_le_encode, Htag. reflexivity.
Qed.

(** C7. When [ReceiveAndRewriteB2HMessage] receives a Body->Head frame
    (its call of [ReceiveMessage] returns a type other than the sentinel),
    the hook reports "not modified" and the bytes written to the outbound
    stream are the inbound frame itself: same header, payload byte for byte
    the inbound payload, trailer the four inbound trailer bytes, hence the
    same CRC value; their number is payload size + header length + 4. *)
Theorem relay_pass_through :
  forall buf inp out Serial type size payload trailer rest,
    length buf = recv_buffer_len ->
    0 <= type < 2 ^ 16 ->
    0 <= size < 2 ^ 16 ->
    Z.of_nat (length payload) = size ->
    length trailer = 4%nat ->
    MockStream.remaining inp =
      frame tag_B2H type size payload trailer ++ rest ->
    received (B2H.ReceiveMessage buf inp 0) = true ->
    exists buf1 inp1 buf' Serial',
      B2H.ReceiveMessage buf inp 0 = Some (type, size, buf1, inp1) /\
      processBody2Head buf1 Serial type = Some (false, buf1, Serial') /\
      ReceiveAndRewriteB2HMessage buf inp out Serial =
        Some (buf', inp1,
              MockStream.write out (frame tag_B2H type size payload trailer),
              Serial') /\
      MockStream.remaining inp1 = rest /\
      Z.of_nat (length (frame tag_B2H type size payload trailer)) =
        size + Z.of_nat payload_ofs + 4.
Proof.
  intros buf inp out Serial type size payload trailer rest
    Hlen Ht Hsz Hp Htr Hs Hrecv.
  destruct (B2H_ReceiveMessage_frame buf inp 0 type size payload trailer rest
              Hlen Ht Hsz Hp Htr Hs Hrecv) as (Hsize & Hcrc & Heq).
  change recv_buffer_len with 1040%nat in Hlen.
  assert (Hfit : (length payload <= 768)%nat)
    by (destruct (B2H_size_cases type); lia).
  set (fr := frame tag_B2H type size payload trailer) in *.
  assert (Hfr : length fr = (payload_ofs + length payload + 4)%nat)
    by (unfold fr; rewrite length_frame, Htr; reflexivity).
  set (tl := skipn (payload_ofs + length payload + 4) buf) in *.
  assert (Htl : (length tl = 1040 - (payload_ofs + length payload + 4))%nat)
    by (unfold tl; rewrite length_skipn, Hlen; reflexivity).
  unfold payload_ofs in Hfr, Htl.
  destruct (processBody2Head_keeps_buffer (fr ++ tl) Serial type)
    as (Serial' & Hhook).
  { rewrite length_app, Hfr, Htl.
    unfold payload_ofs, sizeof_B2HDataFrame. lia. }
  exists (fr ++ tl), (skip inp (payload_ofs + length payload + 4)).
  exists (fr ++ le_encode 4 (crc32 (uint32 (-1)) payload) ++ skipn 4 tl).
  exists Serial'.
  split; [exact Heq|]. split; [exact Hhook|]. split.
  - unfold ReceiveAndRewriteB2HMessage. rewrite Heq. cbn [bind].
    rewrite Hhook. cbn [bind].
    replace (Z.to_nat size) with (length payload) by lia.
    unfold fr at 1. rewrite frame_payload by reflexivity. cbn [bind].
    unfold store_u32.
    rewrite <- (firstn_skipn 4 tl) at 1.
    rewrite (store_at fr (firstn 4 tl))
      by (rewrite ?length_firstn, ?length_le_encode;
          unfold payload_ofs; lia).
    cbn [bind].
    rewrite (load_prefix fr) by (unfold payload_ofs; lia).
    reflexivity.
  - split.
    + rewrite remaining_skip, Hs. fold fr.
      replace (payload_ofs + length payload + 4)%nat with (length fr)
        by (unfold payload_ofs; lia).
      apply skipn_length_app.
    + rewrite Hfr. unfold payload_ofs. lia.
Qed.

(** A text frame arriving when the buffer still holds the CRC word of the
    same text, left by [DataCharacterMsg]. *)
Lemma relay_pass_through_witness :
  exists buf1 inp1 buf' Serial',
    B2H.ReceiveMessage (buffer_after_text text_Hi 2)
      (MockStream.setBuffer frame_Hi) 0 =
      Some (MessageType.dataCharacter, 32, buf1, inp1) /\
    processBody2Head buf1 MockStream.empty MessageType.dataCharacter =
      Some (false, buf1, Serial') /\
    ReceiveAndRewriteB2HMessage (buffer_after_text text_Hi 2)
      (MockStream.setBuffer frame_Hi) MockStream.empty MockStream.empty =
      Some (buf', inp1, MockStream.write MockStream.empty frame_Hi, Serial') /\
    MockStream.remaining inp1 = [] /\
    Z.of_nat (length frame_Hi) = 32 + Z.of_nat payload_ofs + 4.
Proof.
  apply (relay_pass_through (buffer_after_text text_Hi 2)
           (MockStream.setBuffer frame_Hi) MockStream.empty MockStream.empty
           MessageType.dataCharacter 32 payload_Hi (crc_trailer payload_Hi)
           []).
  - vm_compute. reflexivity.
  - unfold MessageType.dataCharacter. lia.
  - lia.
  - reflexivity.
  - reflexivity.
  - vm_compute. reflexivity.
  - vm_compute. reflexivity.
Defined.

(** ** The text message *)

Lemma DataCharacterMsg_of_eq (d : Direction) :
  exists t1 t2 t3,
    DataCharacterMsg_of d = DataCharacterMsg t1 t2 t3 (size_of d) /\
    size_of d MessageType.dataCharacter = 32.
Proof.
  destruct d; [exists x48, x32, x42|exists x42, x32, x48];
    split; reflexivity.
Qed.

(** [DataCharacterMsg("Hi", 2)] on a buffer of at least 48 bytes: what
    it returns and the payload and CRC word it leaves. *)
Lemma DataCharacterMsg_Hi_buffer (t1 t2 t3 : byte) (size : Z -> Z)
  (buf : list byte) :
  size MessageType.dataCharacter = 32 ->
  (48 <= length buf)%nat ->
  let payload := [x48; x69; x00] ++ firstn 29 (skipn 11 buf) in
  exists buf',
    DataCharacterMsg t1 t2 t3 size buf text_Hi 2 = Some (buf', 32) /\
    load buf' payload_ofs 32 = Some payload /\
    load buf' (payload_ofs + 32 + 4) 4 = Some (crc_trailer payload).
Proof.
  intros Hsz Hlen.
  do 48 (destruct buf as [|? buf]; [simpl in Hlen; lia|]).
  clear Hlen. cbv zeta.
  unfold DataCharacterMsg.
  rewrite populateHeader_writes by (simpl; lia).
  rewrite Hsz. unfold store_u32, payload_ofs, text_Hi.
  change (Z.min 2 31 <? 0) with false. cbv iota.
  change (Z.to_nat (Z.min 2 31)) with 2%nat.
  change (Z.to_nat 32) with 32%nat.
  change (to_size_t 32) with 32.
  cbn [le_encode]. run_store.
  eexists. split; [reflexivity|]. split; reflexivity.
Qed.

(** C8 (amended). [DataCharacterMsg("Hi", 2)], in either direction, returns
    32 and leaves a 32-byte payload made of 'H', 'i', NUL and the 29 bytes
    the buffer already held at payload offsets 3 to 31; when those were zero
    (as in the zero-initialised buffer) the payload is 'H', 'i' and 30 zero
    bytes.  The CRC32 of those exact 32 payload bytes is stored, little
    endian, in the CRC word of the buffer (offset [payload_ofs + 32 + 4]). *)
Theorem DataCharacterMsg_Hi :
  forall d recv_buffer,
    length recv_buffer = recv_buffer_len ->
    let payload := [x48; x69; x00] ++ firstn 29 (skipn 11 recv_buffer) in
    exists recv_buffer',
      DataCharacterMsg_of d recv_buffer text_Hi 2 = Some (recv_buffer', 32) /\
      load recv_buffer' payload_ofs 32 = Some payload /\
      (firstn 29 (skipn 11 recv_buffer) = repeat x00 29 ->
       load recv_buffer' payload_ofs 32 = Some payload_Hi) /\
      load recv_buffer' (payload_ofs + 32 + 4) 4 = Some (crc_trailer payload).
Proof.
  intros d buf Hlen payload.
  destruct (DataCharacterMsg_of_eq d) as (t1 & t2 & t3 & -> & Hsz).
  change recv_buffer_len with 1040%nat in Hlen.
  destruct (DataCharacterMsg_Hi_buffer t1 t2 t3 (size_of d) buf Hsz)
    as (buf' & Hrun & Hpay & Hcrc); [lia|].
  exists buf'. split; [exact Hrun|]. split; [exact Hpay|].
  split; [|exact Hcrc].
  intros Hzero. rewrite Hpay, Hzero. reflexivity.
Qed.

(** On the zero-initialised Head->Body buffer. *)
Lemma DataCharacterMsg_Hi_witness :
  exists recv_buffer',
    H2B.DataCharacterMsg recv_buffer_init text_Hi 2 =
      Some (recv_buffer', 32) /\
    load recv_buffer' payload_ofs 32 =
      Some ([x48; x69; x00] ++ firstn 29 (skipn 11 recv_buffer_init)) /\
    (firstn 29 (skipn 11 recv_buffer_init) = repeat x00 29 ->
     load recv_buffer' payload_ofs 32 = Some payload_Hi) /\
    load recv_buffer' (payload_ofs + 32 + 4) 4 =
      Some (crc_trailer
              ([x48; x69; x00] ++ firstn 29 (skipn 11 recv_buffer_init))).
Proof.
  apply (DataCharacterMsg_Hi HeadToBody recv_buffer_init).
  reflexivity.
Defined.

(** C8, as stated, fails: after the text "Hello" has been encoded in the
    buffer, encoding "Hi" leaves 'H', 'i', NUL, 'l', 'o' and zeros as
    payload, not 'H', 'i' and 30 zero bytes. *)
Lemma DataCharacterMsg_Hi_stale_payload :
  exists recv_buffer',
    B2H.DataCharacterMsg (buffer_after_text text_Hello 5) text_Hi 2 =
      Some (recv_buffer', 32) /\
    load recv_buffer' payload_ofs 32 =
      Some ([x48; x69; x00; x6c; x6f] ++ repeat x00 27) /\
    load recv_buffer' payload_ofs 32 <> Some payload_Hi.
Proof.
  eexists. split; [vm_compute; reflexivity|].
  split; [vm_compute; reflexivity|].
  vm_compute. discriminate.
Qed.

(** ** The CRC check of [ReceiveMessage] *)

(** The trailer of the frame has no part in the decision: two frames that
    differ by their trailers only are both accepted or both rejected. *)
Lemma B2H_ReceiveMessage_ignores_trailer (buf : list byte)
  (s1 s2 : MockStream.t) (ps0 type size : Z)
  (payload trailer1 trailer2 rest1 rest2 : list byte) :
  length buf = recv_buffer_len ->
  0 <= type < 2 ^ 16 ->
  0 <= size < 2 ^ 16 ->
  Z.of_nat (length payload) = size ->
  length trailer1 = 4%nat ->
  length trailer2 = 4%nat ->
  MockStream.remaining s1 =
    frame tag_B2H type size payload trailer1 ++ rest1 ->
  MockStream.remaining s2 =
    frame tag_B2H type size payload trailer2 ++ rest2 ->
  received (B2H.ReceiveMessage buf s1 ps0) = true ->
  received (B2H.ReceiveMessage buf s2 ps0) = true.
Proof.
  intros Hlen Ht Hsz Hp Ht1 Ht2 Hs1 Hs2 Hrecv.
  destruct (B2H_ReceiveMessage_frame buf s1 ps0 type size payload trailer1
              rest1 Hlen Ht Hsz Hp Ht1 Hs1 Hrecv) as (Hsize & Hcrc & _).
  change recv_buffer_len with 1040%nat in Hlen.
  unfold frame, tag_B2H in Hs2. cbn [app le_encode] in Hs2.
  rewrite <- !app_assoc in Hs2.
  unfold B2H.ReceiveMessage.
  assert (H8 : (8 <= length buf)%nat) by lia.
  rewrite (ReceiveMessage_header x42 x32 x48 B2H.size buf s2 ps0
             _ _ _ _ _ H8 Hs2).
  pose proof (le_decode_encode_2 type Ht) as Hdt.
  pose proof (le_decode_encode_2 size Hsz) as Hds.
  cbn [le_encode] in Hdt, Hds. rewrite Hdt, Hds. clear Hdt Hds.
  assert (Hrem : MockStream.remaining (skip s2 8) =
                 payload ++ trailer2 ++ rest2)
    by (rewrite remaining_skip, Hs2; reflexivity).
  assert (Hfit : (length payload + 8 <= length (skipn 8 buf))%nat).
  { rewrite length_skipn, Hlen. destruct (B2H_size_cases type); lia. }
  rewrite (ReceiveMessage_tail_frame B2H.size
             [sync; x42; x32; x48; uint8 type; uint8 (type / 256);
              uint8 size; uint8 (size / 256)]
             (skipn 8 buf) (skip s2 8)
             type size payload trailer2 rest2 eq_refl Hrem Hsize Hp Ht2 Hfit).
  rewrite skipn_skipn.
  replace (length payload + 4 + 8)%nat
    with (payload_ofs + length payload + 4)%nat
    by (unfold payload_ofs; lia).
  rewrite <- Hcrc, Z.eqb_refl. cbn [received].
  apply negb_true_iff, Z.eqb_neq. unfold invalid. lia.
Qed.

(** C1. The code departs from the claim.  [ReceiveMessage] computes the
    CRC32 of the payload but compares it with the word at buffer offset
    8 + size + 4, four bytes past the trailer it has just read:
    - on the zero-initialised buffers, the Body->Head acknowledge and the
      Head->Body lights frame whose trailers are the CRC of their payloads
      are rejected with [(MessageType)-1] and size 0;
    - on the buffer in which [DataCharacterMsg] has left the CRC word of the
      text "Hi", the text frame "Hi" is accepted with its right trailer and
      also with a trailer of four zero bytes. *)
Theorem ReceiveMessage_checks_stale_crc_word :
  result_of (B2H.ReceiveMessage recv_buffer_init
               (MockStream.setBuffer frame_ack0) 0) = Some (invalid, 0) /\
  result_of (H2B.ReceiveMessage recv_buffer_init
               (MockStream.setBuffer frame_lights0) 0) = Some (invalid, 0) /\
  result_of (B2H.ReceiveMessage (buffer_after_text text_Hi 2)
               (MockStream.setBuffer frame_Hi) 0) =
    Some (MessageType.dataCharacter, 32) /\
  result_of (B2H.ReceiveMessage (buffer_after_text text_Hi 2)
               (MockStream.setBuffer frame_Hi_bad_trailer) 0) =
    Some (MessageType.dataCharacter, 32) /\
  crc_trailer payload_Hi <> repeat x00 4.
Proof.
  repeat split; try (vm_compute; reflexivity).
  vm_compute. discriminate.
Qed.

(** The same offset, for the largest Head->Body message: with the 1028
    bytes of [updateFirmware] the word compared lies at offset 1040, past
    the end of the 1040-byte buffer. *)
Lemma H2B_updateFirmware_reads_past_buffer :
  H2B.ReceiveMessage recv_buffer_init
    (MockStream.setBuffer
       (frame tag_H2B MessageType.updateFirmware 1028 (repeat x00 1028)
          (crc_trailer (repeat x00 1028)))) 0 = None.
Proof. vm_compute. reflexivity. Qed.

(** ** What every call of [ReceiveMessage] returns *)

Section ReceiveMessageResults.

Variables tag1 tag2 tag3 : byte.
Variable size : Z -> Z.

Lemma waitFor_length (c : byte) (buf : list byte) (s : MockStream.t)
  (offset : nat) (ok : bool) (buf' : list byte) (s' : MockStream.t)
  (offset' : nat) :
  waitFor c buf s offset = Some (ok, buf', s', offset') ->
  length buf' = length buf.
Proof.
  unfold waitFor. destruct (MockStream.read s) as [r s0].
  destruct (store buf offset [uint8 r]) as [b|] eqn:Est; [|discriminate].
  cbn [bind]. apply length_store in Est.
  destruct (Byte.eqb (uint8 r) c); intros [= <- <- <- <-]; exact Est.
Qed.

(** A call that returns yields either [(MessageType)-1], with
    [payload_size] left as the caller had it (sync or tag mismatch) or set
    to 0 (type, size or CRC mismatch), or a 16-bit type of the table with
    its size; the buffer keeps its length. *)
Lemma ReceiveMessage_results (buf : list byte) (s : MockStream.t) (ps0 : Z)
  (t n : Z) (buf' : list byte) (s' : MockStream.t) :
  ReceiveMessage tag1 tag2 tag3 size buf s ps0 = Some (t, n, buf', s') ->
  length buf' = length buf /\
  ((t = invalid /\ (n = ps0 \/ n = 0)) \/
   (0 <= t < 2 ^ 16 /\ size t = n /\ 0 <= n)).
Proof.
  unfold ReceiveMessage.
  destruct (waitFor sync buf s 0) as [[[[ok1 b1] s1] o1]|] eqn:E1;
    [|discriminate].
  cbn [bind]. pose proof (waitFor_length _ _ _ _ _ _ _ _ E1) as L1.
  destruct ok1; cbn [negb];
    [|intros [= <- <- <- <-]; split; [exact L1|left; auto]].
  destruct (waitFor tag1 b1 s1 o1) as [[[[ok2 b2] s2] o2]|] eqn:E2;
    [|discriminate].
  cbn [bind]. pose proof (waitFor_length _ _ _ _ _ _ _ _ E2) as L2.
  destruct ok2; cbn [negb];
    [|intros [= <- <- <- <-]; split; [congruence|left; auto]].
  destruct (waitFor tag2 b2 s2 o2) as [[[[ok3 b3] s3] o3]|] eqn:E3;
    [|discriminate].
  cbn [bind]. pose proof (waitFor_length _ _ _ _ _ _ _ _ E3) as L3.
  destruct ok3; cbn [negb];
    [|intros [= <- <- <- <-]; split; [congruence|left; auto]].
  destruct (waitFor tag3 b3 s3 o3) as [[[[ok4 b4] s4] o4]|] eqn:E4;
    [|discriminate].
  cbn [bind]. pose proof (waitFor_length _ _ _ _ _ _ _ _ E4) as L4.
  destruct ok4; cbn [negb];
    [|intros [= <- <- <- <-]; split; [congruence|left; auto]].
  destruct (MockStream.readBytes s4 4) as [hdr s5].
  destruct (store b4 message_type_ofs hdr) as [b5|] eqn:E5; [|discriminate].
  cbn [bind]. apply length_store in E5.
  unfold load_u16.
  destruct (load b5 message_type_ofs 2) as [tb|] eqn:Et; [|discriminate].
  cbn [bind].
  destruct (load b5 payload_size_ofs 2) as [nb|] eqn:En; [|discriminate].
  cbn [bind].
  destruct ((size (le_decode tb) <? 0) ||
            negb (size (le_decode tb) =? le_decode nb)) eqn:Echk.
  { intros [= <- <- <- <-]. split; [congruence|left; auto]. }
  destruct (MockStream.readBytes s5 (Z.to_nat (le_decode nb + 4)))
    as [body s6].
  destruct (store b5 payload_ofs body) as [b6|] eqn:E6; [|discriminate].
  cbn [bind]. apply length_store in E6.
  destruct (load b6 payload_ofs (Z.to_nat (le_decode nb))) as [payload|];
    [|discriminate].
  cbn [bind].
  destruct (load_u32 b6 (payload_ofs + Z.to_nat (le_decode nb) + 4))
    as [w|]; [|discriminate].
  cbn [bind].
  destruct (negb (crc32 (uint32 (-1)) payload =? w)).
  { intros [= <- <- <- <-]. split; [congruence|left; auto]. }
  intros [= <- <- <- <-]. split; [congruence|right].
  apply orb_false_iff in Echk. destruct Echk as [_ Echk].
  apply negb_false_iff, Z.eqb_eq in Echk.
  pose proof (length_load _ _ _ _ Et) as Hl.
  pose proof (le_decode_range tb) as Hr. rewrite Hl in Hr.
  pose proof (le_decode_range nb).
  change (256 ^ Z.of_nat 2) with (2 ^ 16) in Hr.
  split; [exact Hr|]. split; [exact Echk|lia].
Qed.

End ReceiveMessageResults.

(** When the receive fails, the relay still writes the first twelve bytes
    of the buffer to the outbound stream. *)
Lemma relay_after_failed_receive (buf : list byte)
  (inp out Serial : MockStream.t) (n : Z) (buf1 : list byte)
  (inp1 : MockStream.t) :
  length buf = recv_buffer_len ->
  B2H.ReceiveMessage buf inp 0 = Some (invalid, n, buf1, inp1) ->
  exists buf',
    ReceiveAndRewriteB2HMessage buf inp out Serial =
    Some (buf', inp1, MockStream.write out (firstn 12 buf1), Serial).
Proof.
  intros Hlen Hrecv.
  destruct (ReceiveMessage_results _ _ _ _ _ _ _ _ _ _ _ Hrecv)
    as (Hl & [(_ & Hn)|(Ht & _)]); [|unfold invalid in Ht; lia].
  assert (n = 0) as -> by (destruct Hn; assumption).
  rewrite Hlen in Hl. change recv_buffer_len with 1040%nat in Hl.
  unfold ReceiveAndRewriteB2HMessage. rewrite Hrecv. cbn [bind].
  change (processBody2Head buf1 Serial invalid)
    with (Some (false, buf1, Serial)).
  cbn [bind]. change (Z.to_nat 0) with 0%nat.
  do 16 (destruct buf1 as [|? buf1]; [simpl in Hl; lia|]).
  unfold store_u32, payload_ofs. cbn [le_encode]. run_store.
  eexists. reflexivity.
Qed.

(** C2. The code departs from the claim.  When the first byte is not the
    sync byte, or a tag byte is wrong, [waitFor] returns [(MessageType)-1]
    and [payload_size] keeps the value the caller had in it (7 here); the
    two other failures assign 0. *)
Theorem ReceiveMessage_sync_failure_keeps_payload_size :
  result_of (H2B.ReceiveMessage recv_buffer_init
               (MockStream.setBuffer [x00]) 7) = Some (invalid, 7) /\
  result_of (B2H.ReceiveMessage recv_buffer_init
               (MockStream.setBuffer [x00]) 7) = Some (invalid, 7) /\
  result_of (B2H.ReceiveMessage recv_buffer_init
               (MockStream.setBuffer [xaa; x42; x32; x00]) 7) =
    Some (invalid, 7) /\
  result_of (B2H.ReceiveMessage recv_buffer_init
               (MockStream.setBuffer
                  (frame tag_B2H MessageType.VS 4 payload_ack0
                     (crc_trailer payload_ack0))) 7) = Some (invalid, 0) /\
  result_of (B2H.ReceiveMessage recv_buffer_init
               (MockStream.setBuffer frame_ack0) 7) = Some (invalid, 0).
Proof. repeat split; vm_compute; reflexivity. Qed.

(** C3. The code departs from the claim.  [ReceiveAndRewriteB2HMessage]
    does not look at the type returned: when the receive fails, with size 0,
    it still writes the first 0 + 8 + 4 bytes of the buffer to the outbound
    stream.  Shown for a sync mismatch and for a frame rejected by the
    type check. *)
Theorem relay_forwards_after_failed_receive :
  result_of (B2H.ReceiveMessage recv_buffer_init
               (MockStream.setBuffer [x00]) 0) = Some (invalid, 0) /\
  (exists buf' inp' Serial',
     ReceiveAndRewriteB2HMessage recv_buffer_init
       (MockStream.setBuffer [x00]) MockStream.empty MockStream.empty =
     Some (buf', inp', MockStream.setBuffer (repeat x00 12), Serial')) /\
  result_of (B2H.ReceiveMessage recv_buffer_init
               (MockStream.setBuffer
                  (frame tag_B2H MessageType.VS 0 [] (crc_trailer []))) 0) =
    Some (invalid, 0) /\
  (exists buf' inp' Serial',
     ReceiveAndRewriteB2HMessage recv_buffer_init
       (MockStream.setBuffer
          (frame tag_B2H MessageType.VS 0 [] (crc_trailer [])))
       MockStream.empty MockStream.empty =
     Some (buf', inp',
           MockStream.setBuffer
             ([xaa; x42; x32; x48; x76; x73; x00; x00] ++ repeat x00 4),
           Serial')).
Proof.
  split; [vm_compute; reflexivity|].
  split; [eexists _, _, _; vm_compute; reflexivity|].
  split; [vm_compute; reflexivity|].
  eexists _, _, _; vm_compute; reflexivity.
Qed.

(** C4. The code departs from the claim, by the defect of C1.  The header
    written by [populateHeader], followed by a payload and by the CRC of
    that payload, is rejected by [ReceiveMessage] of the same direction on
    the zero-initialised buffer: acknowledge for Body->Head, lights for
    Head->Body. *)
Theorem populateHeader_ReceiveMessage_round_trip_fails :
  (exists buffer,
     B2H.populateHeader (repeat x00 12) MessageType.ack = Some (buffer, 4) /\
     firstn 8 buffer ++ payload_ack0 ++ crc_trailer payload_ack0 =
       frame_ack0 /\
     result_of (B2H.ReceiveMessage recv_buffer_init
                  (MockStream.setBuffer
                     (firstn 8 buffer ++ payload_ack0 ++
                        crc_trailer payload_ack0)) 0) = Some (invalid, 0)) /\
  (exists buffer,
     H2B.populateHeader (repeat x00 12) MessageType.lights =
       Some (buffer, 16) /\
     firstn 8 buffer ++ payload_lights0 ++ crc_trailer payload_lights0 =
       frame_lights0 /\
     result_of (H2B.ReceiveMessage recv_buffer_init
                  (MockStream.setBuffer
                     (firstn 8 buffer ++ payload_lights0 ++
                        crc_trailer payload_lights0)) 0) = Some (invalid, 0)).
Proof.
  split; eexists; (split; [vm_compute; reflexivity|]);
    split; vm_compute; reflexivity.
Qed.

(** C6. The code departs from the claim, by the defect of C1.  On a byte
    other than the sync byte followed by a valid acknowledge frame, the
    first call fails and consumes that byte only, as claimed; the second
    call, on the frame that remains, fails too where the claim has it
    succeed. *)
Theorem second_receive_after_garbage_fails :
  exists buf1 inp1,
    B2H.ReceiveMessage recv_buffer_init
      (MockStream.setBuffer (x00 :: frame_ack0)) 0 =
      Some (invalid, 0, buf1, inp1) /\
    MockStream.remaining inp1 = frame_ack0 /\
    result_of (B2H.ReceiveMessage buf1 inp1 0) = Some (invalid, 0).
Proof.
  eexists _, _. split; [vm_compute; reflexivity|].
  split; vm_compute; reflexivity.
Qed.

(** * Further properties of the code *)

(** ** [tests/mockStream.cpp] *)

Lemma skipn_firstn_length {A : Type} (n : nat) (l : list A) :
  skipn (length (firstn n l)) l = skipn n l.
Proof.
  rewrite length_firstn.
  destruct (Nat.le_ge_cases n (length l)) as [H|H].
  - rewrite Nat.min_l by exact H. reflexivity.
  - rewrite Nat.min_r by exact H.
    rewrite skipn_all, skipn_all2 by exact H. reflexivity.
Qed.

Lemma remaining_write (s : MockStream.t) (data : list byte) :
  stream_ok s ->
  MockStream.remaining (MockStream.write s data) =
  MockStream.remaining s ++ data.
Proof.
  unfold stream_ok, MockStream.remaining, MockStream.write. simpl. intros H.
  rewrite skipn_app.
  replace (MockStream.readIndex s - length (MockStream.buffer s))%nat
    with 0%nat by lia.
  reflexivity.
Qed.

Lemma readBytes_any (s : MockStream.t) (n : nat) :
  MockStream.readBytes s n =
  (firstn n (MockStream.remaining s),
   skip s (length (firstn n (MockStream.remaining s)))).
Proof. reflexivity. Qed.

Lemma stream_ok_skip (s : MockStream.t) (n : nat) :
  stream_ok s -> (n <= length (MockStream.remaining s))%nat ->
  stream_ok (skip s n).
Proof.
  unfold stream_ok, skip, MockStream.remaining. simpl.
  rewrite length_skipn. lia.
Qed.

(** X1. The stream is first in, first out: when [readBytes(n)] follows
    [write(data)], the bytes obtained are the first [n] of the bytes that
    were still unread followed by [data], fewer when the stream runs out;
    the rest stays for later reads and the read position stays within the
    content. *)
Theorem MockStream_write_readBytes_fifo :
  forall s data n,
    stream_ok s ->
    let pending := MockStream.remaining s ++ data in
    fst (MockStream.readBytes (MockStream.write s data) n) =
      firstn n pending /\
    MockStream.remaining
      (snd (MockStream.readBytes (MockStream.write s data) n)) =
      skipn n pending /\
    stream_ok (snd (MockStream.readBytes (MockStream.write s data) n)).
Proof.
  intros s data n Hok pending.
  rewrite readBytes_any, remaining_write by exact Hok.
  fold pending. cbn [fst snd].
  split; [reflexivity|]. split.
  - rewrite remaining_skip, remaining_write by exact Hok.
    apply skipn_firstn_length.
  - apply stream_ok_skip.
    + unfold stream_ok, MockStream.write in *. simpl.
      rewrite length_app. lia.
    + rewrite remaining_write by exact Hok. fold pending.
      rewrite length_firstn. lia.
Qed.

(** Two bytes written after one unread byte, then a read of five. *)
Lemma MockStream_write_readBytes_fifo_witness :
  fst (MockStream.readBytes
         (MockStream.write (MockStream.mk [x01; x02] 1) [x03; x04]) 5) =
    [x02; x03; x04] /\
  MockStream.remaining
    (snd (MockStream.readBytes
            (MockStream.write (MockStream.mk [x01; x02] 1) [x03; x04]) 5)) =
    [] /\
  stream_ok
    (snd (MockStream.readBytes
            (MockStream.write (MockStream.mk [x01; x02] 1) [x03; x04]) 5)).
Proof.
  apply (MockStream_write_readBytes_fifo (MockStream.mk [x01; x02] 1)
           [x03; x04] 5).
  unfold stream_ok. simpl. lia.
Defined.

Lemma remaining_nil_iff (s : MockStream.t) :
  MockStream.remaining s = [] <->
  (length (MockStream.buffer s) <= MockStream.readIndex s)%nat.
Proof.
  unfold MockStream.remaining. split; intros H.
  - apply (f_equal (@length byte)) in H.
    rewrite length_skipn in H. simpl in H. lia.
  - apply skipn_all2. exact H.
Qed.

Lemma remaining_cons_lt (s : MockStream.t) (b : byte) (r : list byte) :
  MockStream.remaining s = b :: r ->
  (MockStream.readIndex s < length (MockStream.buffer s))%nat /\
  nth_error (MockStream.buffer s) (MockStream.readIndex s) = Some b /\
  MockStream.remaining
    (MockStream.mk (MockStream.buffer s) (S (MockStream.readIndex s))) = r.
Proof.
  intros H. split; [|split].
  - destruct (Nat.lt_ge_cases (MockStream.readIndex s)
                (length (MockStream.buffer s))) as [Hlt|Hge]; [exact Hlt|].
    apply remaining_nil_iff in Hge. congruence.
  - unfold MockStream.remaining in H. rewrite <- hd_error_skipn, H.
    reflexivity.
  - change (MockStream.mk (MockStream.buffer s) (S (MockStream.readIndex s)))
      with (MockStream.mk (MockStream.buffer s)
              (1 + MockStream.readIndex s)).
    unfold MockStream.remaining in *.
    cbn [MockStream.buffer MockStream.readIndex].
    rewrite <- (skipn_skipn 1 (MockStream.readIndex s)), H. reflexivity.
Qed.

Lemma skip_0 (s : MockStream.t) : skip s 0 = s.
Proof. destruct s. unfold skip. simpl. rewrite Nat.add_0_r. reflexivity. Qed.

Lemma readBytes_loop_spec (size ofs : nat) :
  forall turns i s out,
    (i + turns = size)%nat ->
    (ofs + i + Nat.min turns (length (MockStream.remaining s)) <=
       length out)%nat ->
    readBytes_loop turns i size s out ofs =
    Some (firstn (ofs + i) out ++ firstn turns (MockStream.remaining s) ++
            skipn (ofs + i + Nat.min turns (length (MockStream.remaining s)))
              out,
          skip s (Nat.min turns (length (MockStream.remaining s)))).
Proof.
  induction turns as [|turns IH]; intros i s out Hi Hfit.
  - cbn [readBytes_loop firstn Nat.min app].
    rewrite Nat.add_0_r, firstn_skipn, skip_0. reflexivity.
  - cbn [readBytes_loop].
    replace (i <? size)%nat with true by (symmetry; apply Nat.ltb_lt; lia).
    cbn [andb].
    destruct (MockStream.remaining s) as [|b r] eqn:Hrem.
    + apply remaining_nil_iff in Hrem.
      replace (_ <? _)%nat with false by (symmetry; apply Nat.ltb_ge; lia).
      cbn [firstn length Nat.min app].
      rewrite Nat.add_0_r, firstn_skipn, skip_0. reflexivity.
    + destruct (remaining_cons_lt s b r Hrem) as (Hlt & Hnth & Hr).
      replace (_ <? _)%nat with true by (symmetry; apply Nat.ltb_lt; lia).
      rewrite Hnth. cbn [bind].
      cbn [length Nat.min] in Hfit |- *.
      set (k := Nat.min turns (length r)) in *.
      rewrite <- (firstn_skipn (ofs + i) out) at 1.
      assert (Hpre : length (firstn (ofs + i) out) = (ofs + i)%nat)
        by (rewrite length_firstn; lia).
      rewrite <- (firstn_skipn 1 (skipn (ofs + i) out)) at 1.
      rewrite (store_at (firstn (ofs + i) out) _ _ [b])
        by (rewrite ?length_firstn, ?length_skipn; cbn [length]; lia).
      cbn [bind].
      set (s1 := MockStream.mk (MockStream.buffer s)
                   (S (MockStream.readIndex s))) in *.
      set (out1 := firstn (ofs + i) out ++ [b] ++
                     skipn 1 (skipn (ofs + i) out)).
      assert (Hlen1 : length out1 = length out).
      { unfold out1. rewrite !length_app, Hpre, !length_skipn.
        cbn [length]. lia. }
      rewrite (IH (S i) s1 out1) by (rewrite ?Hr, ?Hlen1; fold k; lia).
      rewrite Hr. fold k.
      assert (Hf : firstn (ofs + S i) out1 = firstn (ofs + i) out ++ [b]).
      { unfold out1. rewrite app_assoc.
        replace (ofs + S i)%nat
          with (length (firstn (ofs + i) out ++ [b]))
          by (rewrite length_app, Hpre; cbn [length]; lia).
        apply firstn_length_app. }
      assert (Hs : skipn (ofs + S i + k) out1 = skipn (ofs + i + S k) out).
      { unfold out1. rewrite app_assoc.
        replace (ofs + S i + k)%nat
          with (k + length (firstn (ofs + i) out ++ [b]))%nat
          by (rewrite length_app, Hpre; cbn [length]; lia).
        rewrite <- skipn_skipn, skipn_length_app, !skipn_skipn.
        f_equal. lia. }
      rewrite Hf, Hs, <- !app_assoc. cbn [firstn app].
      f_equal. f_equal.
      unfold s1, skip. simpl. f_equal. lia.
Qed.

(** X2. The loop of [readBytes] and the block copy agree: when the bytes
    available fit in the array at the offset given, running the loop turn
    by turn stores exactly the bytes that [readBytes] takes from the stream
    (the first [size] unread ones, fewer at the end of the stream) in one
    block at that offset, and leaves the stream at the same position. *)
Theorem readBytes_loop_is_block_copy :
  forall s out ofs size,
    (ofs + Nat.min size (length (MockStream.remaining s)) <=
       length out)%nat ->
    readBytes_into s out ofs size =
    (let '(bs, s') := MockStream.readBytes s size in
     out' <- store out ofs bs ;; Some (out', s')).
Proof.
  intros s out ofs size Hfit.
  unfold readBytes_into.
  rewrite (readBytes_loop_spec size ofs size 0 s out) by lia.
  rewrite readBytes_any.
  unfold store. rewrite length_firstn.
  replace (_ <=? _)%nat with true by (symmetry; apply Nat.leb_le; lia).
  cbn [bind]. rewrite !Nat.add_0_r. reflexivity.
Qed.

(** Three bytes asked, two left, stored at offset 1 of a four-byte array. *)
Lemma readBytes_loop_is_block_copy_witness :
  readBytes_into (MockStream.mk [x01; x02; x03] 1) (repeat x00 4) 1 3 =
  (let '(bs, s') := MockStream.readBytes (MockStream.mk [x01; x02; x03] 1) 3
   in out' <- store (repeat x00 4) 1 bs ;; Some (out', s')).
Proof.
  apply (readBytes_loop_is_block_copy (MockStream.mk [x01; x02; x03] 1)
           (repeat x00 4) 1 3).
  simpl. lia.
Defined.

(** ** [ReceiveMessage]: the hunt for sync byte and tag *)

Section SyncHunt.

Variables tag1 tag2 tag3 : byte.
Variable size : Z -> Z.

Lemma waitFor_exhausted (c : byte) (buf : list byte) (s : MockStream.t)
  (offset : nat) :
  MockStream.remaining s = [] ->
  c <> xff ->
  waitFor c buf s offset =
  (buf' <- store buf offset [xff] ;; Some (false, buf', s, offset)).
Proof.
  intros Hs Hc. unfold waitFor. rewrite (read_exhausted s Hs).
  change (uint8 (-1)) with xff.
  rewrite (byte_eqb_neq xff c) by congruence. reflexivity.
Qed.

Lemma remaining_skip_cons (s : MockStream.t) (b : byte) (r : list byte) :
  MockStream.remaining s = b :: r ->
  MockStream.remaining (skip s 1) = r.
Proof. intros H. rewrite remaining_skip, H. reflexivity. Qed.

(** The byte at position [k] of the start sequence is wrong. *)
Lemma ReceiveMessage_mismatch (buf : list byte) (s : MockStream.t)
  (ps0 : Z) (k : nat) (g : byte) (rest : list byte) :
  (4 <= length buf)%nat ->
  (k < 4)%nat ->
  MockStream.remaining s =
    firstn k [sync; tag1; tag2; tag3] ++ g :: rest ->
  g <> nth k [sync; tag1; tag2; tag3] x00 ->
  ReceiveMessage tag1 tag2 tag3 size buf s ps0 =
  Some (invalid, ps0,
        firstn k [sync; tag1; tag2; tag3] ++ g :: skipn (S k) buf,
        skip s (S k)).
Proof.
  intros Hlen Hk Hs Hg.
  do 4 (destruct buf as [|? buf]; [simpl in Hlen; lia|]). clear Hlen.
  unfold ReceiveMessage.
  destruct k as [|[|[|[|k]]]]; [| | | |lia];
    cbn [firstn app nth] in Hs, Hg |- *.
  - rewrite (waitFor_read _ _ _ _ _ _ Hs). run_store.
    rewrite (byte_eqb_neq _ _ Hg). reflexivity.
  - rewrite (waitFor_read _ _ _ _ _ _ Hs). run_store.
    rewrite byte_eqb_refl. cbn [bind negb].
    apply remaining_skip_cons in Hs.
    rewrite (waitFor_read _ _ _ _ _ _ Hs). run_store.
    rewrite (byte_eqb_neq _ _ Hg), skip_skip. reflexivity.
  - rewrite (waitFor_read _ _ _ _ _ _ Hs). run_store.
    rewrite byte_eqb_refl. cbn [bind negb].
    apply remaining_skip_cons in Hs.
    rewrite (waitFor_read _ _ _ _ _ _ Hs). run_store.
    rewrite byte_eqb_refl. cbn [bind negb].
    apply remaining_skip_cons in Hs.
    rewrite (waitFor_read _ _ _ _ _ _ Hs). run_store.
    rewrite (byte_eqb_neq _ _ Hg), !skip_skip. reflexivity.
  - rewrite (waitFor_read _ _ _ _ _ _ Hs). run_store.
    rewrite byte_eqb_refl. cbn [bind negb].
    apply remaining_skip_cons in Hs.
    rewrite (waitFor_read _ _ _ _ _ _ Hs). run_store.
    rewrite byte_eqb_refl. cbn [bind negb].
    apply remaining_skip_cons in Hs.
    rewrite (waitFor_read _ _ _ _ _ _ Hs). run_store.
    rewrite byte_eqb_refl. cbn [bind negb].
    apply remaining_skip_cons in Hs.
    rewrite (waitFor_read _ _ _ _ _ _ Hs). run_store.
    rewrite (byte_eqb_neq _ _ Hg), !skip_skip. reflexivity.
Qed.

(** The stream ends inside the start sequence. *)
Lemma ReceiveMessage_exhausted (buf : list byte) (s : MockStream.t)
  (ps0 : Z) (k : nat) :
  (4 <= length buf)%nat ->
  (k < 4)%nat ->
  tag1 <> xff -> tag2 <> xff -> tag3 <> xff ->
  MockStream.remaining s = firstn k [sync; tag1; tag2; tag3] ->
  ReceiveMessage tag1 tag2 tag3 size buf s ps0 =
  Some (invalid, ps0,
        firstn k [sync; tag1; tag2; tag3] ++ xff :: skipn (S k) buf,
        skip s k).
Proof.
  intros Hlen Hk H1 H2 H3 Hs.
  assert (H0 : sync <> xff) by discriminate.
  do 4 (destruct buf as [|? buf]; [simpl in Hlen; lia|]). clear Hlen.
  unfold ReceiveMessage.
  destruct k as [|[|[|[|k]]]]; [| | | |lia];
    cbn [firstn app] in Hs |- *.
  - rewrite (waitFor_exhausted _ _ _ _ Hs H0). run_store.
    rewrite skip_0. reflexivity.
  - rewrite (waitFor_read _ _ _ _ _ _ Hs). run_store.
    rewrite byte_eqb_refl. cbn [bind negb].
    apply remaining_skip_cons in Hs.
    rewrite (waitFor_exhausted _ _ _ _ Hs H1). run_store. reflexivity.
  - rewrite (waitFor_read _ _ _ _ _ _ Hs). run_store.
    rewrite byte_eqb_refl. cbn [bind negb].
    apply remaining_skip_cons in Hs.
    rewrite (waitFor_read _ _ _ _ _ _ Hs). run_store.
    rewrite byte_eqb_refl. cbn [bind negb].
    apply remaining_skip_cons in Hs.
    rewrite (waitFor_exhausted _ _ _ _ Hs H2). run_store.
    rewrite !skip_skip. reflexivity.
  - rewrite (waitFor_read _ _ _ _ _ _ Hs). run_store.
    rewrite byte_eqb_refl. cbn [bind negb].
    apply remaining_skip_cons in Hs.
    rewrite (waitFor_read _ _ _ _ _ _ Hs). run_store.
    rewrite byte_eqb_refl. cbn [bind negb].
    apply remaining_skip_cons in Hs.
    rewrite (waitFor_read _ _ _ _ _ _ Hs). run_store.
    rewrite byte_eqb_refl. cbn [bind negb].
    apply remaining_skip_cons in Hs.
    rewrite (waitFor_exhausted _ _ _ _ Hs H3). run_store.
    rewrite !skip_skip. reflexivity.
Qed.

End SyncHunt.

Lemma ReceiveMessage_of_start (d : Direction) :
  exists t1 t2 t3,
    start_of d = [sync; t1; t2; t3] /\
    t1 <> xff /\ t2 <> xff /\ t3 <> xff /\
    ReceiveMessage_of d = ReceiveMessage t1 t2 t3 (size_of d).
Proof.
  destruct d; [exists x48, x32, x42|exists x42, x32, x48];
    repeat split; discriminate.
Qed.

(** X3. A wrong byte at position [k] of the start sequence (sync byte,
    then the three tag bytes) ends the call: it returns [(MessageType)-1],
    leaves [payload_size] as the caller had it, has consumed exactly the
    [k + 1] bytes up to and including the wrong one, and has stored them in
    the first [k + 1] cells of the buffer; the bytes after it stay in the
    stream and the wrong byte is not looked at again. *)
Theorem ReceiveMessage_start_mismatch :
  forall d buf s ps0 k g rest,
    (4 <= length buf)%nat ->
    (k < 4)%nat ->
    MockStream.remaining s = firstn k (start_of d) ++ g :: rest ->
    g <> nth k (start_of d) x00 ->
    exists s',
      ReceiveMessage_of d buf s ps0 =
        Some (invalid, ps0, firstn k (start_of d) ++ g :: skipn (S k) buf,
              s') /\
      MockStream.remaining s' = rest.
Proof.
  intros d buf s ps0 k g rest Hlen Hk Hs Hg.
  destruct (ReceiveMessage_of_start d) as (t1 & t2 & t3 & Hst & _ & _ & _ & ->).
  rewrite Hst in *.
  exists (skip s (S k)). split.
  - eapply ReceiveMessage_mismatch; eassumption.
  - rewrite remaining_skip, Hs.
    replace (S k) with (length (firstn k [sync; t1; t2; t3] ++ [g]))
      by (rewrite length_app, length_firstn; cbn [length]; lia).
    rewrite <- (skipn_length_app (firstn k [sync; t1; t2; t3] ++ [g]) rest)
      at 2.
    rewrite <- app_assoc. reflexivity.
Qed.

(** The sync byte and 'B', then 'X' where '2' is expected, before a
    complete acknowledge frame. *)
Lemma ReceiveMessage_start_mismatch_witness :
  exists s',
    B2H.ReceiveMessage recv_buffer_init
      (MockStream.setBuffer ([xaa; x42] ++ x58 :: frame_ack0)) 7 =
      Some (invalid, 7, [xaa; x42] ++ x58 :: skipn 3 recv_buffer_init, s') /\
    MockStream.remaining s' = frame_ack0.
Proof.
  apply (ReceiveMessage_start_mismatch BodyToHead recv_buffer_init
           (MockStream.setBuffer ([xaa; x42] ++ x58 :: frame_ack0)) 7 2 x58
           frame_ack0).
  - vm_compute. lia.
  - lia.
  - reflexivity.
  - discriminate.
Defined.

(** X4. When the stream ends inside the start sequence (an empty stream
    included), the call returns [(MessageType)-1] and leaves [payload_size]
    as the caller had it: the -1 of [read()] is stored as the byte 0xFF
    after the bytes read, which is none of the bytes waited for; the stream
    is left exhausted. *)
Theorem ReceiveMessage_end_of_stream :
  forall d buf s ps0 k,
    (4 <= length buf)%nat ->
    (k < 4)%nat ->
    MockStream.remaining s = firstn k (start_of d) ->
    exists s',
      ReceiveMessage_of d buf s ps0 =
        Some (invalid, ps0, firstn k (start_of d) ++ xff :: skipn (S k) buf,
              s') /\
      MockStream.remaining s' = [].
Proof.
  intros d buf s ps0 k Hlen Hk Hs.
  destruct (ReceiveMessage_of_start d)
    as (t1 & t2 & t3 & Hst & H1 & H2 & H3 & ->).
  rewrite Hst in *.
  exists (skip s k). split.
  - apply ReceiveMessage_exhausted; assumption.
  - rewrite remaining_skip, Hs.
    apply skipn_all2. rewrite length_firstn. lia.
Qed.

(** The empty stream, Head->Body. *)
Lemma ReceiveMessage_end_of_stream_witness :
  exists s',
    H2B.ReceiveMessage recv_buffer_init MockStream.empty 5 =
      Some (invalid, 5, [] ++ xff :: skipn 1 recv_buffer_init, s') /\
    MockStream.remaining s' = [].
Proof.
  apply (ReceiveMessage_end_of_stream HeadToBody recv_buffer_init
           MockStream.empty 5 0).
  - vm_compute. lia.
  - lia.
  - reflexivity.
Defined.

(** X5. The two directions do not mix: a frame that carries the tag of the
    opposite direction is rejected at its second byte, whatever its type,
    size, payload and trailer; two bytes are consumed and [payload_size]
    is left as the caller had it. *)
Theorem ReceiveMessage_rejects_opposite_direction :
  forall d buf s ps0 type size payload trailer rest,
    (4 <= length buf)%nat ->
    MockStream.remaining s =
      frame (tag_of (opposite d)) type size payload trailer ++ rest ->
    exists buf' s',
      ReceiveMessage_of d buf s ps0 = Some (invalid, ps0, buf', s') /\
      MockStream.remaining s' =
        skipn 2 (frame (tag_of (opposite d)) type size payload trailer) ++
        rest.
Proof.
  intros d buf s ps0 type size payload trailer rest Hlen Hs.
  destruct (ReceiveMessage_of_start d)
    as (t1 & t2 & t3 & Hst & _ & _ & _ & Heq).
  rewrite Heq. clear Heq.
  assert (H : exists g t2' t3',
             tag_of (opposite d) = [g; t2'; t3'] /\ g <> t1).
  { destruct d; injection Hst as <- <- <-;
      [exists x42, x32, x48|exists x48, x32, x42]; split;
      [reflexivity|discriminate|reflexivity|discriminate]. }
  destruct H as (g & t2' & t3' & Htag & Hg).
  unfold frame in *. rewrite Htag in *. cbn [app skipn] in Hs |- *.
  eexists _, (skip s 2). split.
  - apply (ReceiveMessage_mismatch t1 t2 t3 (size_of d) buf s ps0 1 g
             (t2' :: t3' :: le_encode 2 type ++ le_encode 2 size ++
                (payload ++ trailer) ++ rest)).
    + exact Hlen.
    + lia.
    + rewrite Hs. cbn [firstn app]. rewrite <- !app_assoc. reflexivity.
    + exact Hg.
  - rewrite remaining_skip, Hs. reflexivity.
Qed.

(** A complete Head->Body lights frame given to [B2H::ReceiveMessage]. *)
Lemma ReceiveMessage_rejects_opposite_direction_witness :
  exists buf' s',
    B2H.ReceiveMessage recv_buffer_init
      (MockStream.setBuffer (frame_lights0 ++ [])) 3 =
      Some (invalid, 3, buf', s') /\
    MockStream.remaining s' = skipn 2 frame_lights0 ++ [].
Proof.
  apply (ReceiveMessage_rejects_opposite_direction BodyToHead
           recv_buffer_init (MockStream.setBuffer (frame_lights0 ++ [])) 3
           MessageType.lights 16 payload_lights0
           (crc_trailer payload_lights0) []).
  - vm_compute. lia.
  - reflexivity.
Defined.

(** ** [ReceiveMessage]: results and bounds *)

Lemma table_lookup_range (d : Direction) (t n : Z) :
  table_lookup t (spec_table d) = Some n ->
  0 <= t < 2 ^ 16 /\ 0 <= n <= 1028 /\ size_of d t = n.
Proof.
  intros H. rewrite size_of_table, H.
  destruct d; cbn [spec_table spec_H2B_table spec_B2H_table table_lookup] in H;
    repeat match type of H with
      | (if ?a =? ?b then _ else _) = _ =>
          let E := fresh "E" in
          destruct (a =? b) eqn:E;
          [apply Z.eqb_eq in E; injection H as <-; subst t;
           repeat split; vm_compute; congruence|]
      end;
    discriminate H.
Qed.

(** X6. What a call hands back is always one of two things: the type
    [(MessageType)-1], with [payload_size] either left as the caller had it
    or set to 0; or a 16-bit type of the direction's table together with
    the payload size the table gives for it.  The buffer keeps its
    length. *)
Theorem ReceiveMessage_returns_table_entry_or_sentinel :
  forall d buf s ps0 t n buf' s',
    ReceiveMessage_of d buf s ps0 = Some (t, n, buf', s') ->
    length buf' = length buf /\
    ((t = invalid /\ (n = ps0 \/ n = 0)) \/
     (0 <= t < 2 ^ 16 /\ table_lookup t (spec_table d) = Some n)).
Proof.
  intros d buf s ps0 t n buf' s' H.
  destruct (ReceiveMessage_of_eq d) as (t1 & t2 & t3 & _ & Heq).
  rewrite Heq in H.
  destruct (ReceiveMessage_results _ _ _ _ _ _ _ _ _ _ _ H)
    as (Hl & [Hbad|(Ht & Hsz & Hn)]).
  - split; [exact Hl|left; exact Hbad].
  - split; [exact Hl|right]. split; [exact Ht|].
    rewrite size_of_table in Hsz.
    destruct (table_lookup t (spec_table d)) as [m|]; [congruence|lia].
Qed.

(** A complete text frame on the buffer that holds its CRC word. *)
Lemma ReceiveMessage_returns_table_entry_or_sentinel_witness :
  exists buf' s',
    B2H.ReceiveMessage (buffer_after_text text_Hi 2)
      (MockStream.setBuffer frame_Hi) 0 =
      Some (MessageType.dataCharacter, 32, buf', s') /\
    length buf' = length (buffer_after_text text_Hi 2) /\
    ((MessageType.dataCharacter = invalid /\ (32 = 0 \/ 32 = 0)) \/
     (0 <= MessageType.dataCharacter < 2 ^ 16 /\
      table_lookup MessageType.dataCharacter (spec_table BodyToHead) =
        Some 32)).
Proof.
  eexists _, _. split; [vm_compute; reflexivity|].
  eapply (ReceiveMessage_returns_table_entry_or_sentinel BodyToHead
            (buffer_after_text text_Hi 2) (MockStream.setBuffer frame_Hi) 0
            MessageType.dataCharacter 32).
  vm_compute. reflexivity.
Defined.

Lemma store_in_bounds (buf bs : list byte) (ofs : nat) :
  (ofs + length bs <= length buf)%nat ->
  exists buf', store buf ofs bs = Some buf' /\ length buf' = length buf.
Proof.
  intros H. unfold store.
  replace (_ <=? _)%nat with true by (symmetry; apply Nat.leb_le; exact H).
  eexists. split; [reflexivity|].
  rewrite !length_app, length_firstn, length_skipn. lia.
Qed.

Section ReceiveBounds.

Variables tag1 tag2 tag3 : byte.
Variable size : Z -> Z.

Lemma waitFor_in_bounds (c : byte) (buf : list byte) (s : MockStream.t)
  (offset : nat) :
  (offset < length buf)%nat ->
  exists (ok : bool) buf' s',
    waitFor c buf s offset =
      Some (ok, buf', s', if ok then S offset else offset) /\
    length buf' = length buf.
Proof.
  intros H. unfold waitFor. destruct (MockStream.read s) as [r s0].
  destruct (store_in_bounds buf [uint8 r] offset) as (b & -> & Hl);
    [cbn [length]; lia|].
  cbn [bind]. destruct (Byte.eqb (uint8 r) c);
    [exists true, b, s0|exists false, b, s0];
    (split; [reflexivity|exact Hl]).
Qed.

(** When every size of the table leaves room for sixteen more bytes in the
    buffer (header, trailer and the word compared), no access of
    [ReceiveMessage] falls outside the buffer, whatever the stream
    delivers. *)
Lemma ReceiveMessage_in_bounds (buf : list byte) (s : MockStream.t)
  (ps0 : Z) :
  (16 <= length buf)%nat ->
  (forall t, size t + 16 <= Z.of_nat (length buf)) ->
  exists r, ReceiveMessage tag1 tag2 tag3 size buf s ps0 = Some r.
Proof.
  intros Hlen Hsize. unfold ReceiveMessage.
  destruct (waitFor_in_bounds sync buf s 0) as (ok1 & b1 & s1 & -> & L1);
    [lia|].
  cbn [bind]. destruct ok1; cbn [negb]; [|eexists; reflexivity].
  destruct (waitFor_in_bounds tag1 b1 s1 1) as (ok2 & b2 & s2 & -> & L2);
    [lia|].
  cbn [bind]. destruct ok2; cbn [negb]; [|eexists; reflexivity].
  destruct (waitFor_in_bounds tag2 b2 s2 2) as (ok3 & b3 & s3 & -> & L3);
    [lia|].
  cbn [bind]. destruct ok3; cbn [negb]; [|eexists; reflexivity].
  destruct (waitFor_in_bounds tag3 b3 s3 3) as (ok4 & b4 & s4 & -> & L4);
    [lia|].
  cbn [bind]. destruct ok4; cbn [negb]; [|eexists; reflexivity].
  rewrite readBytes_any.
  destruct (store_in_bounds b4 (firstn 4 (MockStream.remaining s4))
              message_type_ofs) as (b5 & -> & L5).
  { pose proof (firstn_le_length 4 (MockStream.remaining s4)).
    unfold message_type_ofs. lia. }
  cbn [bind]. unfold load_u16.
  rewrite !load_in_bounds
    by (unfold message_type_ofs, payload_size_ofs; lia).
  cbn [bind].
  set (mt := le_decode (firstn 2 (skipn message_type_ofs b5))).
  set (ps := le_decode (firstn 2 (skipn payload_size_ofs b5))).
  destruct ((size mt <? 0) || negb (size mt =? ps)) eqn:Echk;
    [eexists; reflexivity|].
  apply orb_false_iff in Echk. destruct Echk as [Hpos Echk].
  apply negb_false_iff, Z.eqb_eq in Echk. apply Z.ltb_ge in Hpos.
  pose proof (Hsize mt) as Hroom. rewrite Echk in Hroom, Hpos.
  rewrite readBytes_any.
  set (body := firstn (Z.to_nat (ps + 4)) (MockStream.remaining _)).
  destruct (store_in_bounds b5 body payload_ofs) as (b6 & -> & L6).
  { pose proof (firstn_le_length (Z.to_nat (ps + 4))
                  (MockStream.remaining (skip s4 (length (firstn 4
                     (MockStream.remaining s4)))))).
    fold body in H. unfold payload_ofs. lia. }
  cbn [bind]. unfold load_u32.
  rewrite !load_in_bounds by (unfold payload_ofs; lia).
  cbn [bind].
  destruct (negb _); eexists; reflexivity.
Qed.

End ReceiveBounds.

(** X7. [B2H::ReceiveMessage] stays inside [B2H::recv_buffer]: on the
    1040-byte buffer, whatever it holds and whatever the stream delivers
    (nothing, garbage, a truncated or a complete frame), every byte stored
    or read lies within the array and the call returns. *)
Theorem B2H_ReceiveMessage_stays_in_buffer :
  forall buf s ps0,
    length buf = recv_buffer_len ->
    exists t n buf' s',
      B2H.ReceiveMessage buf s ps0 = Some (t, n, buf', s').
Proof.
  intros buf s ps0 Hlen.
  change recv_buffer_len with 1040%nat in Hlen.
  destruct (ReceiveMessage_in_bounds x42 x32 x48 B2H.size buf s ps0)
    as ([[[t n] buf'] s'] & H).
  - lia.
  - intros t. rewrite Hlen. destruct (B2H_size_cases t); lia.
  - exists t, n, buf', s'. exact H.
Qed.

(** A header that announces a data frame, then the end of the stream. *)
Lemma B2H_ReceiveMessage_stays_in_buffer_witness :
  exists t n buf' s',
    B2H.ReceiveMessage recv_buffer_init
      (MockStream.setBuffer
         (frame tag_B2H MessageType.dataFrame 768 [] [])) 0 =
    Some (t, n, buf', s').
Proof.
  apply (B2H_ReceiveMessage_stays_in_buffer recv_buffer_init
           (MockStream.setBuffer
              (frame tag_B2H MessageType.dataFrame 768 [] [])) 0).
  reflexivity.
Defined.

(** X8. [H2B::ReceiveMessage] leaves [H2B::recv_buffer] on every update
    firmware frame: once the header announces [updateFirmware] with its
    1028 bytes, the word compared with the CRC is read at offset
    8 + 1028 + 4 = 1040, the first byte past the 1040-byte array, whatever
    the buffer holds and whatever follows the header in the stream. *)
Theorem H2B_updateFirmware_leaves_buffer :
  forall buf s ps0 rest,
    length buf = recv_buffer_len ->
    MockStream.remaining s =
      sync :: tag_H2B ++ le_encode 2 MessageType.updateFirmware ++
        le_encode 2 1028 ++ rest ->
    H2B.ReceiveMessage buf s ps0 = None.
Proof.
  intros buf s ps0 rest Hlen Hs.
  change recv_buffer_len with 1040%nat in Hlen.
  unfold H2B.ReceiveMessage.
  assert (H8 : (8 <= length buf)%nat) by lia.
  cbn [tag_H2B app le_encode] in Hs.
  rewrite (ReceiveMessage_header x48 x32 x42 H2B.size buf s ps0
             _ _ _ _ _ H8 Hs).
  change (le_decode [uint8 MessageType.updateFirmware;
                     uint8 (MessageType.updateFirmware / 256)])
    with MessageType.updateFirmware.
  change (le_decode [uint8 1028; uint8 (1028 / 256)]) with 1028.
  unfold ReceiveMessage_tail.
  change (H2B.size MessageType.updateFirmware) with 1028.
  cbn [Z.ltb Z.eqb Z.compare Pos.compare Pos.compare_cont Pos.eqb
       orb negb].
  rewrite readBytes_any.
  set (body := firstn _ (MockStream.remaining (skip s 8))).
  set (hdr := [sync; x48; x32; x42; _; _; _; _]).
  assert (Hhdr : length (hdr ++ skipn 8 buf) = 1040%nat)
    by (rewrite length_app, length_skipn, Hlen; reflexivity).
  destruct (store_in_bounds (hdr ++ skipn 8 buf) body payload_ofs)
    as (b6 & -> & L6).
  { pose proof (firstn_le_length (Z.to_nat (1028 + 4))
                  (MockStream.remaining (skip s 8))) as Hb.
    fold body in Hb. rewrite Hhdr. unfold payload_ofs.
    change (Z.to_nat (1028 + 4)) with 1032%nat in Hb. lia. }
  cbn [bind].
  rewrite load_in_bounds
    by (rewrite L6, Hhdr; unfold payload_ofs;
        change (Z.to_nat 1028) with 1028%nat; lia).
  cbn [bind]. unfold load_u32, load.
  replace (_ <=? _)%nat with false; [reflexivity|].
  symmetry. apply Nat.leb_gt. rewrite L6, Hhdr. unfold payload_ofs.
  change (Z.to_nat 1028) with 1028%nat. lia.
Qed.

(** The header alone, on the zero-initialised buffer. *)
Lemma H2B_updateFirmware_leaves_buffer_witness :
  H2B.ReceiveMessage recv_buffer_init
    (MockStream.setBuffer
       (sync :: tag_H2B ++ le_encode 2 MessageType.updateFirmware ++
          le_encode 2 1028 ++ [])) 0 = None.
Proof.
  apply (H2B_updateFirmware_leaves_buffer recv_buffer_init
           (MockStream.setBuffer
              (sync :: tag_H2B ++ le_encode 2 MessageType.updateFirmware ++
                 le_encode 2 1028 ++ [])) 0 []).
  - reflexivity.
  - reflexivity.
Defined.

(** ** [ReceiveMessage]: after a header that passes the checks *)

Lemma skipn_app_ge {A : Type} (k : nat) (l r : list A) :
  (length l <= k)%nat -> skipn k (l ++ r) = skipn (k - length l) r.
Proof.
  intros H. rewrite skipn_app, skipn_all2 by exact H. reflexivity.
Qed.

Section AfterHeader.

Variable size : Z -> Z.

(** Whatever the stream still holds: the bytes it delivers, at most
    size + 4, replace the start of the region at offset 8; the CRC is
    computed over the first [size] bytes of that region, delivered or left
    over, and compared with the word the buffer held at offset
    8 + size + 4. *)
Lemma ReceiveMessage_tail_any (hdr old : list byte) (s : MockStream.t)
  (mt ps : Z) :
  length hdr = payload_ofs ->
  size mt = ps ->
  0 <= ps ->
  (Z.to_nat ps + 8 <= length old)%nat ->
  let body := firstn (Z.to_nat ps + 4) (MockStream.remaining s) in
  let region := body ++ skipn (length body) old in
  let s' := skip s (length body) in
  ReceiveMessage_tail size (hdr ++ old) s mt ps =
  if crc32 (uint32 (-1)) (firstn (Z.to_nat ps) region) =?
     le_decode (firstn 4 (skipn (Z.to_nat ps + 4) old))
  then Some (mt, ps, hdr ++ region, s')
  else Some (invalid, 0, hdr ++ region, s').
Proof.
  intros Hh Hsz Hps Hold body region s'.
  unfold ReceiveMessage_tail. rewrite Hsz, Z.eqb_refl.
  replace (ps <? 0) with false by (symmetry; apply Z.ltb_ge; lia).
  cbn [orb negb].
  replace (Z.to_nat (ps + 4)) with (Z.to_nat ps + 4)%nat by lia.
  rewrite readBytes_any. fold body. fold s'.
  assert (Hb : (length body <= Z.to_nat ps + 4)%nat)
    by (unfold body; apply firstn_le_length).
  rewrite <- (firstn_skipn (length body) old) at 1.
  rewrite (store_at hdr _ _ body)
    by (rewrite ?length_firstn; unfold payload_ofs in *; lia).
  cbn [bind]. fold region.
  assert (Hreg : length region = length old).
  { unfold region. rewrite length_app, length_skipn. lia. }
  rewrite load_in_bounds by (rewrite length_app, Hreg, Hh; lia).
  cbn [bind]. unfold load_u32.
  rewrite load_in_bounds by (rewrite length_app, Hreg, Hh; lia).
  cbn [bind].
  rewrite <- Hh, skipn_length_app.
  replace (length hdr + Z.to_nat ps + 4)%nat
    with (Z.to_nat ps + 4 + length hdr)%nat by lia.
  rewrite <- skipn_skipn, skipn_length_app.
  replace (skipn (Z.to_nat ps + 4) region)
    with (skipn (Z.to_nat ps + 4) old).
  - destruct (crc32 _ _ =? le_decode _); reflexivity.
  - unfold region. rewrite skipn_app_ge by exact Hb.
    rewrite skipn_skipn. f_equal. lia.
Qed.

End AfterHeader.

Lemma complete_frame_received :
  forall d buf s ps0 type n payload trailer rest,
    length buf = recv_buffer_len ->
    table_lookup type (spec_table d) = Some n ->
    n + 16 <= Z.of_nat recv_buffer_len ->
    Z.of_nat (length payload) = n ->
    length trailer = 4%nat ->
    MockStream.remaining s =
      frame (tag_of d) type n payload trailer ++ rest ->
    let word := firstn 4 (skipn (payload_ofs + length payload + 4) buf) in
    let buf' := frame (tag_of d) type n payload trailer ++
                  skipn (payload_ofs + length payload + 4) buf in
    exists s',
      MockStream.remaining s' = rest /\
      ReceiveMessage_of d buf s ps0 =
        if crc32 (uint32 (-1)) payload =? le_decode word
        then Some (type, n, buf', s')
        else Some (invalid, 0, buf', s').
Proof.
  intros d buf s ps0 type n payload trailer rest
    Hlen Htab Hroom Hp Htr Hs word buf'.
  destruct (table_lookup_range d type n Htab) as (Ht & Hn & Hsize).
  destruct (ReceiveMessage_of_eq d) as (t1 & t2 & t3 & Htag & ->).
  change recv_buffer_len with 1040%nat in Hlen, Hroom.
  subst word buf'. unfold frame in *. rewrite Htag in *.
  cbn [app le_encode] in Hs |- *. rewrite <- !app_assoc in Hs.
  assert (H8 : (8 <= length buf)%nat) by lia.
  rewrite (ReceiveMessage_header t1 t2 t3 (size_of d) buf s ps0
             _ _ _ _ _ H8 Hs).
  pose proof (le_decode_encode_2 type Ht) as Hdt.
  pose proof (le_decode_encode_2 n ltac:(lia)) as Hdn.
  cbn [le_encode] in Hdt, Hdn. rewrite Hdt, Hdn. clear Hdt Hdn.
  assert (Hrem : MockStream.remaining (skip s 8) = payload ++ trailer ++ rest)
    by (rewrite remaining_skip, Hs; reflexivity).
  assert (Hfit : (length payload + 8 <= length (skipn 8 buf))%nat)
    by (rewrite length_skipn, Hlen; lia).
  rewrite (ReceiveMessage_tail_frame (size_of d)
             [sync; t1; t2; t3; uint8 type; uint8 (type / 256);
              uint8 n; uint8 (n / 256)]
             (skipn 8 buf) (skip s 8)
             type n payload trailer rest eq_refl Hrem Hsize Hp Htr Hfit).
  rewrite skipn_skipn, skip_skip.
  replace (length payload + 4 + 8)%nat
    with (payload_ofs + length payload + 4)%nat
    by (unfold payload_ofs; lia).
  exists (skip s (8 + (length payload + 4))). split.
  - rewrite remaining_skip, Hs.
    change (skipn (8 + (length payload + 4))
              (sync :: t1 :: t2 :: t3 :: uint8 type :: uint8 (type / 256)
                 :: uint8 n :: uint8 (n / 256)
                 :: payload ++ trailer ++ rest))
      with (skipn (length payload + 4) (payload ++ trailer ++ rest)).
    rewrite app_assoc.
    replace (length payload + 4)%nat with (length (payload ++ trailer))
      by (rewrite length_app; lia).
    apply skipn_length_app.
  - rewrite <- !app_assoc. reflexivity.
Qed.

(** X9. A complete frame of a type of the table (other than the 1028-byte
    [updateFirmware], see X8), with the declared size of the table: the
    call consumes exactly the 8 + size + 4 bytes of the frame, leaves the
    frame in the first 8 + size + 4 bytes of the buffer and the rest of the
    buffer untouched, and returns the type and the size exactly when the
    CRC32 of the payload equals the little-endian word that the buffer held
    at offset 8 + size + 4 before the call; otherwise it returns
    [(MessageType)-1] and size 0. *)
Theorem ReceiveMessage_complete_frame :
  forall d buf s ps0 type n payload trailer rest,
    length buf = recv_buffer_len ->
    table_lookup type (spec_table d) = Some n ->
    n + 16 <= Z.of_nat recv_buffer_len ->
    Z.of_nat (length payload) = n ->
    length trailer = 4%nat ->
    MockStream.remaining s =
      frame (tag_of d) type n payload trailer ++ rest ->
    let word := firstn 4 (skipn (payload_ofs + length payload + 4) buf) in
    let buf' := frame (tag_of d) type n payload trailer ++
                  skipn (payload_ofs + length payload + 4) buf in
    exists s',
      MockStream.remaining s' = rest /\
      ReceiveMessage_of d buf s ps0 =
        if crc32 (uint32 (-1)) payload =? le_decode word
        then Some (type, n, buf', s')
        else Some (invalid, 0, buf', s').
Proof.
  intros d buf s ps0 type n payload trailer rest
    Hlen Htab Hroom Hp Htr Hs.
  apply complete_frame_received; assumption.
Qed.

(** The Head->Body lights frame on the zero-initialised buffer. *)
Lemma ReceiveMessage_complete_frame_witness :
  exists s',
    MockStream.remaining s' = [] /\
    H2B.ReceiveMessage recv_buffer_init
      (MockStream.setBuffer (frame_lights0 ++ [])) 0 =
      if crc32 (uint32 (-1)) payload_lights0 =?
         le_decode (firstn 4 (skipn (payload_ofs + length payload_lights0 + 4)
                                recv_buffer_init))
      then Some (MessageType.lights, 16,
                 frame_lights0 ++
                   skipn (payload_ofs + length payload_lights0 + 4)
                     recv_buffer_init, s')
      else Some (invalid, 0,
                 frame_lights0 ++
                   skipn (payload_ofs + length payload_lights0 + 4)
                     recv_buffer_init, s').
Proof.
  apply (ReceiveMessage_complete_frame HeadToBody recv_buffer_init
           (MockStream.setBuffer (frame_lights0 ++ [])) 0
           MessageType.lights 16 payload_lights0
           (crc_trailer payload_lights0) []).
  - reflexivity.
  - reflexivity.
  - vm_compute. discriminate.
  - reflexivity.
  - reflexivity.
  - reflexivity.
Defined.

Lemma readBytes_exhausted (s : MockStream.t) (n : nat) :
  MockStream.remaining s = [] -> MockStream.readBytes s n = ([], s).
Proof.
  intros H. rewrite readBytes_any, H, firstn_nil. cbn [length].
  rewrite skip_0. reflexivity.
Qed.

(** X10. The number of bytes [readBytes] delivers is not looked at.  After
    a message has been received, a stream that delivers only the eight
    header bytes of the same type and then ends is received as that message
    once more: nothing is stored over the payload, and the CRC is computed
    over the payload left in the buffer and compared with the same word. *)
Theorem ReceiveMessage_header_alone_repeats_message :
  forall d buf s1 ps0 type n payload trailer rest s2 ps1,
    length buf = recv_buffer_len ->
    table_lookup type (spec_table d) = Some n ->
    n + 16 <= Z.of_nat recv_buffer_len ->
    Z.of_nat (length payload) = n ->
    length trailer = 4%nat ->
    MockStream.remaining s1 =
      frame (tag_of d) type n payload trailer ++ rest ->
    received (ReceiveMessage_of d buf s1 ps0) = true ->
    MockStream.remaining s2 =
      sync :: tag_of d ++ le_encode 2 type ++ le_encode 2 n ->
    exists buf1 s1' s2',
      ReceiveMessage_of d buf s1 ps0 = Some (type, n, buf1, s1') /\
      ReceiveMessage_of d buf1 s2 ps1 = Some (type, n, buf1, s2') /\
      MockStream.remaining s2' = [].
Proof.
  intros d buf s1 ps0 type n payload trailer rest s2 ps1
    Hlen Htab Hroom Hp Htr Hs1 Hrecv Hs2.
  destruct (complete_frame_received d buf s1 ps0 type n payload trailer rest
              Hlen Htab Hroom Hp Htr Hs1) as (s1' & _ & Hfirst).
  cbv zeta in Hfirst. rewrite Hfirst in Hrecv.
  destruct (crc32 (uint32 (-1)) payload =? le_decode _) eqn:Ecrc;
    [|discriminate Hrecv].
  clear Hrecv.
  set (tl := skipn (payload_ofs + length payload + 4) buf) in *.
  set (buf1 := frame (tag_of d) type n payload trailer ++ tl) in *.
  exists buf1, s1', (skip s2 8).
  split; [exact Hfirst|]. split.
  2:{ rewrite remaining_skip, Hs2.
      destruct (ReceiveMessage_of_eq d) as (t1 & t2 & t3 & -> & _).
      reflexivity. }
  destruct (table_lookup_range d type n Htab) as (Ht & Hn & Hsize).
  destruct (ReceiveMessage_of_eq d) as (t1 & t2 & t3 & Htag & ->).
  change recv_buffer_len with 1040%nat in Hlen, Hroom.
  assert (Htl : length tl = (1040 - (payload_ofs + length payload + 4))%nat)
    by (unfold tl; rewrite length_skipn, Hlen; reflexivity).
  unfold payload_ofs in Htl.
  unfold buf1, frame in *. rewrite Htag in *.
  cbn [app le_encode] in Hs2 |- *.
  rewrite (ReceiveMessage_header t1 t2 t3 (size_of d)
             (sync :: t1 :: t2 :: t3 :: uint8 type :: uint8 (type / 256)
                :: uint8 n :: uint8 (n / 256) :: (payload ++ trailer) ++ tl)
             s2 ps1 _ _ _ _ [] ltac:(cbn [length]; lia) Hs2).
  pose proof (le_decode_encode_2 type Ht) as Hdt.
  pose proof (le_decode_encode_2 n ltac:(lia)) as Hdn.
  cbn [le_encode] in Hdt, Hdn. rewrite Hdt, Hdn. clear Hdt Hdn.
  cbn [skipn]. rewrite <- !app_assoc.
  assert (Hrem : MockStream.remaining (skip s2 8) = [])
    by (rewrite remaining_skip, Hs2; reflexivity).
  pose proof (ReceiveMessage_tail_any (size_of d)
                [sync; t1; t2; t3; uint8 type; uint8 (type / 256);
                 uint8 n; uint8 (n / 256)]
                (payload ++ trailer ++ tl) (skip s2 8) type n
                eq_refl Hsize ltac:(lia)
                ltac:(rewrite !length_app, Htl; lia)) as Htail.
  cbv zeta in Htail. rewrite Hrem, firstn_nil in Htail.
  cbn [length skipn app] in Htail. rewrite skip_0 in Htail.
  replace (Z.to_nat n) with (length payload) in Htail by lia.
  rewrite firstn_length_app in Htail.
  replace (length payload + 4)%nat with (length (payload ++ trailer))
    in Htail by (rewrite length_app; lia).
  rewrite (app_assoc payload trailer tl), skipn_length_app in Htail.
  rewrite Ecrc in Htail. rewrite <- app_assoc in Htail.
  exact Htail.
Qed.

(** The text frame "Hi", then its header alone. *)
Lemma ReceiveMessage_header_alone_repeats_message_witness :
  exists buf1 s1' s2',
    B2H.ReceiveMessage (buffer_after_text text_Hi 2)
      (MockStream.setBuffer (frame_Hi ++ [])) 0 =
      Some (MessageType.dataCharacter, 32, buf1, s1') /\
    B2H.ReceiveMessage buf1
      (MockStream.setBuffer
         (sync :: tag_B2H ++ le_encode 2 MessageType.dataCharacter ++
            le_encode 2 32)) 9 =
      Some (MessageType.dataCharacter, 32, buf1, s2') /\
    MockStream.remaining s2' = [].
Proof.
  apply (ReceiveMessage_header_alone_repeats_message BodyToHead
           (buffer_after_text text_Hi 2)
           (MockStream.setBuffer (frame_Hi ++ [])) 0
           MessageType.dataCharacter 32 payload_Hi (crc_trailer payload_Hi)
           []
           (MockStream.setBuffer
              (sync :: tag_B2H ++ le_encode 2 MessageType.dataCharacter ++
                 le_encode 2 32)) 9).
  - vm_compute. reflexivity.
  - reflexivity.
  - vm_compute. discriminate.
  - reflexivity.
  - reflexivity.
  - reflexivity.
  - vm_compute. reflexivity.
  - reflexivity.
Defined.

(** ** [populateHeader] *)

Lemma populateHeader_short (t1 t2 t3 : byte) (size : Z -> Z)
  (buffer : list byte) (t : Z) :
  (length buffer < 8)%nat ->
  populateHeader t1 t2 t3 size buffer t = None.
Proof.
  intros Hlen.
  unfold populateHeader, store_u16, message_type_ofs, payload_size_ofs.
  cbn [le_encode].
  do 8 (destruct buffer as [|? buffer]; [run_store; reflexivity|]).
  simpl in Hlen. lia.
Qed.

(** X11. For a type of the direction's table, [populateHeader] returns
    the table's size and writes the first eight bytes of a frame of that
    type: followed by a payload and a trailer they form the frame whose
    type and size [ReceiveMessage] checks; the bytes of the buffer from
    offset 8 on are left as they were.  It needs eight bytes: on a shorter
    buffer it writes past the end. *)
Theorem populateHeader_writes_frame_header :
  forall d buffer t n,
    table_lookup t (spec_table d) = Some n ->
    ((length buffer < 8)%nat -> populateHeader_of d buffer t = None) /\
    ((8 <= length buffer)%nat ->
     exists buffer',
       populateHeader_of d buffer t = Some (buffer', n) /\
       skipn 8 buffer' = skipn 8 buffer /\
       load_u16 buffer' message_type_ofs = Some t /\
       load_u16 buffer' payload_size_ofs = Some n /\
       forall payload trailer,
         firstn 8 buffer' ++ payload ++ trailer =
         frame (tag_of d) t n payload trailer).
Proof.
  intros d buffer t n Htab.
  destruct (table_lookup_range d t n Htab) as (Ht & Hn & Hsize).
  destruct (populateHeader_of_eq d) as (t1 & t2 & t3 & Htag & ->).
  split; [apply populateHeader_short|].
  intros Hlen.
  rewrite (populateHeader_writes _ _ _ _ _ _ Hlen), Hsize, Htag.
  unfold to_size_t, uint16.
  rewrite (Z.mod_small n) by lia.
  rewrite (Z.mod_small n), (Z.mod_small t) by lia.
  eexists. split; [reflexivity|].
  pose proof (le_decode_encode_2 t Ht) as Hdt.
  pose proof (le_decode_encode_2 n ltac:(lia)) as Hdn.
  cbn [le_encode app] in *.
  unfold load_u16, load, message_type_ofs, payload_size_ofs, frame.
  run_store. rewrite Hdt, Hdn.
  repeat split; reflexivity.
Qed.

(** The acknowledge header in the 12-byte buffer of the unit tests. *)
Lemma populateHeader_writes_frame_header_witness :
  exists buffer',
    B2H.populateHeader (repeat x00 12) MessageType.ack = Some (buffer', 4) /\
    skipn 8 buffer' = skipn 8 (repeat x00 12) /\
    load_u16 buffer' message_type_ofs = Some MessageType.ack /\
    load_u16 buffer' payload_size_ofs = Some 4 /\
    forall payload trailer,
      firstn 8 buffer' ++ payload ++ trailer =
      frame tag_B2H MessageType.ack 4 payload trailer.
Proof.
  apply (proj2 (populateHeader_writes_frame_header BodyToHead
                  (repeat x00 12) MessageType.ack 4 eq_refl)).
  simpl. lia.
Defined.

(** ** [DataCharacterMsg] *)

Lemma skipn_split {A : Type} (a k : nat) (l : list A) :
  skipn a l = firstn k (skipn a l) ++ skipn (a + k) l.
Proof.
  rewrite (Nat.add_comm a k), <- skipn_skipn, firstn_skipn. reflexivity.
Qed.

Lemma length_firstn_skipn {A : Type} (a k : nat) (l : list A) :
  (a + k <= length l)%nat -> length (firstn k (skipn a l)) = k.
Proof. intros H. rewrite length_firstn, length_skipn. lia. Qed.

(** The buffer after [DataCharacterMsg(text, numBytes)], cell by cell. *)
Lemma DataCharacterMsg_buffer (t1 t2 t3 : byte) (size : Z -> Z)
  (buf text : list byte) (numBytes : Z) :
  size MessageType.dataCharacter = 32 ->
  (48 <= length buf)%nat ->
  0 <= numBytes ->
  Z.min numBytes 31 <= Z.of_nat (length text) ->
  let m := Z.to_nat (Z.min numBytes 31) in
  let payload :=
    firstn m text ++
    x00 :: firstn (31 - m) (skipn (payload_ofs + m + 1) buf) in
  length payload = 32%nat /\
  DataCharacterMsg t1 t2 t3 size buf text numBytes =
  Some (frame [t1; t2; t3] MessageType.dataCharacter 32 payload
          (firstn 4 (skipn 40 buf)) ++
        crc_trailer payload ++ skipn 48 buf, 32).
Proof.
  intros Hsz Hlen Hn Htext m payload.
  assert (Hm : (m <= 31)%nat) by (unfold m; lia).
  assert (Hmt : (m <= length text)%nat) by (unfold m; lia).
  assert (Hchars : length (firstn m text) = m)
    by (rewrite length_firstn; lia).
  assert (Hpay : length payload = 32%nat).
  { unfold payload. rewrite length_app. cbn [length].
    rewrite Hchars, length_firstn_skipn by (unfold payload_ofs; lia). lia. }
  split; [exact Hpay|].
  set (old4 := firstn 4 (skipn 40 buf)).
  set (rest := skipn 48 buf).
  unfold DataCharacterMsg.
  rewrite populateHeader_writes by lia. rewrite Hsz.
  cbn [bind]. fold m.
  replace (Z.min numBytes 31 <? 0) with false
    by (symmetry; apply Z.ltb_ge; lia).
  rewrite (load_in_bounds text 0 m) by lia.
  change (skipn 0 text) with text. cbn [bind].
  change (to_size_t 32) with 32. change (Z.to_nat 32) with 32%nat.
  set (hdr := [sync; t1; t2; t3] ++
              le_encode 2 (uint16 MessageType.dataCharacter) ++
              le_encode 2 (uint16 32)).
  change (sync :: t1 :: t2 :: t3 ::
            le_encode 2 (uint16 MessageType.dataCharacter) ++
            le_encode 2 (uint16 32) ++ skipn 8 buf)
    with (hdr ++ skipn 8 buf).
  assert (Hhdr : length hdr = 8%nat) by reflexivity.
  (* the characters *)
  rewrite (skipn_split 8 m buf).
  rewrite (store_at hdr _ _ (firstn m text))
    by (rewrite ?length_firstn_skipn; unfold payload_ofs; lia).
  cbn [bind].
  (* the terminator *)
  rewrite (skipn_split (8 + m) 1 buf).
  replace (hdr ++ firstn m text ++
             firstn 1 (skipn (8 + m) buf) ++ skipn (8 + m + 1) buf)
    with ((hdr ++ firstn m text) ++
             firstn 1 (skipn (8 + m) buf) ++ skipn (8 + m + 1) buf)
    by (rewrite <- app_assoc; reflexivity).
  rewrite (store_at (hdr ++ firstn m text) _ _ [x00])
    by (rewrite ?length_app, ?length_firstn_skipn; cbn [length];
        unfold payload_ofs; lia).
  cbn [bind].
  (* the payload read back for the CRC *)
  replace (8 + m + 1)%nat with (payload_ofs + m + 1)%nat by reflexivity.
  rewrite (skipn_split (payload_ofs + m + 1) (31 - m) buf).
  replace (payload_ofs + m + 1 + (31 - m))%nat with 40%nat
    by (unfold payload_ofs; lia).
  replace ((hdr ++ firstn m text) ++ [x00] ++
             firstn (31 - m) (skipn (payload_ofs + m + 1) buf) ++
             skipn 40 buf)
    with (hdr ++ payload ++ skipn 40 buf)
    by (unfold payload; rewrite <- !app_assoc; reflexivity).
  rewrite (load_at hdr payload) by (unfold payload_ofs; lia).
  cbn [bind].
  (* the CRC word *)
  unfold store_u32.
  rewrite (skipn_split 40 4 buf), (skipn_split (40 + 4) 4 buf).
  replace (hdr ++ payload ++ firstn 4 (skipn 40 buf) ++
             firstn 4 (skipn (40 + 4) buf) ++ skipn (40 + 4 + 4) buf)
    with ((hdr ++ payload ++ firstn 4 (skipn 40 buf)) ++
             firstn 4 (skipn (40 + 4) buf) ++ skipn (40 + 4 + 4) buf)
    by (rewrite <- !app_assoc; reflexivity).
  rewrite (store_at (hdr ++ payload ++ firstn 4 (skipn 40 buf)))
    by (rewrite ?length_app, ?length_firstn_skipn, ?length_le_encode;
        unfold payload_ofs; lia).
  cbn [bind]. subst old4 rest. unfold frame, crc_trailer, hdr, uint16.
  cbn [app]. rewrite <- !app_assoc. reflexivity.
Qed.

Lemma DataCharacterMsg_of_buffer :
  forall d buf text numBytes,
    length buf = recv_buffer_len ->
    0 <= numBytes ->
    Z.min numBytes 31 <= Z.of_nat (length text) ->
    let m := Z.to_nat (Z.min numBytes 31) in
    let payload :=
      firstn m text ++
      x00 :: firstn (31 - m) (skipn (payload_ofs + m + 1) buf) in
    length payload = 32%nat /\
    DataCharacterMsg_of d buf text numBytes =
    Some (frame (tag_of d) MessageType.dataCharacter 32 payload
            (firstn 4 (skipn 40 buf)) ++
          crc_trailer payload ++ skipn 48 buf, 32).
Proof.
  intros d buf text numBytes Hlen Hn Htext.
  change recv_buffer_len with 1040%nat in Hlen.
  destruct d.
  - apply (DataCharacterMsg_buffer x48 x32 x42 H2B.size); try assumption;
      [reflexivity|lia].
  - apply (DataCharacterMsg_buffer x42 x32 x48 B2H.size); try assumption;
      [reflexivity|lia].
Qed.

(** X12. [DataCharacterMsg(text, numBytes)], for any text and any count
    from 0 up: at most 31 characters are copied (larger counts are cut to
    31), a NUL follows them, and the other bytes of the 32-byte text field
    keep what the buffer held.  The buffer then starts with the frame of
    type [dataCharacter] made of that payload and, where its trailer
    belongs (offsets 40 to 43), the four bytes the buffer already held
    there; the CRC32 of the 32 payload bytes follows at offsets 44 to 47;
    the rest is untouched.  The value returned is 32. *)
Theorem DataCharacterMsg_layout :
  forall d buf text numBytes,
    length buf = recv_buffer_len ->
    0 <= numBytes ->
    Z.min numBytes 31 <= Z.of_nat (length text) ->
    let m := Z.to_nat (Z.min numBytes 31) in
    let payload :=
      firstn m text ++
      x00 :: firstn (31 - m) (skipn (payload_ofs + m + 1) buf) in
    length payload = 32%nat /\
    DataCharacterMsg_of d buf text numBytes =
    Some (frame (tag_of d) MessageType.dataCharacter 32 payload
            (firstn 4 (skipn 40 buf)) ++
          crc_trailer payload ++ skipn 48 buf, 32).
Proof.
  intros d buf text numBytes Hlen Hn Htext.
  apply DataCharacterMsg_of_buffer; assumption.
Qed.

(** Forty characters offered: thirty-one are taken. *)
Lemma DataCharacterMsg_layout_witness :
  length (firstn (Z.to_nat (Z.min 40 31)) (repeat x41 40) ++
          x00 :: firstn (31 - Z.to_nat (Z.min 40 31))
                   (skipn (payload_ofs + Z.to_nat (Z.min 40 31) + 1)
                      recv_buffer_init)) = 32%nat /\
  B2H.DataCharacterMsg recv_buffer_init (repeat x41 40) 40 =
  Some (frame tag_B2H MessageType.dataCharacter 32
          (firstn (Z.to_nat (Z.min 40 31)) (repeat x41 40) ++
           x00 :: firstn (31 - Z.to_nat (Z.min 40 31))
                    (skipn (payload_ofs + Z.to_nat (Z.min 40 31) + 1)
                       recv_buffer_init))
          (firstn 4 (skipn 40 recv_buffer_init)) ++
        crc_trailer
          (firstn (Z.to_nat (Z.min 40 31)) (repeat x41 40) ++
           x00 :: firstn (31 - Z.to_nat (Z.min 40 31))
                    (skipn (payload_ofs + Z.to_nat (Z.min 40 31) + 1)
                       recv_buffer_init)) ++
        skipn 48 recv_buffer_init, 32).
Proof.
  apply (DataCharacterMsg_layout BodyToHead recv_buffer_init
           (repeat x41 40) 40).
  - reflexivity.
  - lia.
  - vm_compute. discriminate.
Defined.

(** ** The CRC register stays a 32-bit word *)

Lemma lxor_32 (a b : Z) :
  0 <= a < 2 ^ 32 -> 0 <= b < 2 ^ 32 -> 0 <= Z.lxor a b < 2 ^ 32.
Proof.
  intros Ha Hb.
  assert (Hnn : 0 <= Z.lxor a b) by (apply Z.lxor_nonneg; lia).
  split; [exact Hnn|].
  destruct (Z.eq_dec (Z.lxor a b) 0) as [->|Hne]; [lia|].
  apply Z.log2_lt_pow2; [lia|].
  eapply Z.le_lt_trans; [apply Z.log2_lxor; lia|].
  apply Z.max_lub_lt.
  - destruct (Z.eq_dec a 0) as [->|]; [reflexivity|].
    apply Z.log2_lt_pow2; lia.
  - destruct (Z.eq_dec b 0) as [->|]; [reflexivity|].
    apply Z.log2_lt_pow2; lia.
Qed.

Lemma crc32_bit_32 (c : Z) : 0 <= c < 2 ^ 32 -> 0 <= crc32_bit c < 2 ^ 32.
Proof.
  intros Hc. unfold crc32_bit.
  assert (Hs : 0 <= Z.shiftr c 1 < 2 ^ 32).
  { rewrite Z.shiftr_div_pow2 by lia. change (2 ^ 1) with 2.
    split; [apply Z.div_pos; lia|].
    apply Z.div_lt_upper_bound; lia. }
  destruct (Z.testbit c 0); [apply lxor_32; [exact Hs|lia]|exact Hs].
Qed.

Lemma crc32_byte_32 (c : Z) (b : byte) :
  0 <= c < 2 ^ 32 -> 0 <= crc32_byte c b < 2 ^ 32.
Proof.
  intros Hc. unfold crc32_byte. cbv zeta.
  do 8 apply crc32_bit_32.
  apply lxor_32; [exact Hc|].
  pose proof (byte_to_Z_range b). lia.
Qed.

Lemma crc32_32 (bs : list byte) (c : Z) :
  0 <= c < 2 ^ 32 -> 0 <= crc32 c bs < 2 ^ 32.
Proof.
  unfold crc32, crc32_le. revert c.
  induction bs as [|b bs IH]; intros c Hc; cbn [fold_left]; [exact Hc|].
  apply IH, crc32_byte_32, Hc.
Qed.

Lemma le_decode_encode_4 (z : Z) :
  0 <= z < 2 ^ 32 -> le_decode (le_encode 4 z) = z.
Proof.
  intros Hz. cbn [le_encode le_decode].
  rewrite !byte_to_Z_uint8.
  change (2 ^ 32) with 4294967296 in Hz.
  pose proof (Z.div_mod z 256 ltac:(lia)).
  pose proof (Z.div_mod (z / 256) 256 ltac:(lia)).
  pose proof (Z.div_mod (z / 256 / 256) 256 ltac:(lia)).
  assert (0 <= z / 256 / 256 / 256 < 256).
  { split; [repeat apply Z.div_pos; lia|].
    repeat (apply Z.div_lt_upper_bound; [lia|]). lia. }
  rewrite (Z.mod_small (z / 256 / 256 / 256)) by assumption.
  lia.
Qed.

Lemma le_decode_crc_trailer (payload : list byte) :
  le_decode (crc_trailer payload) = crc32 (uint32 (-1)) payload.
Proof.
  unfold crc_trailer. apply le_decode_encode_4, crc32_32.
  unfold uint32. apply Z.mod_pos_bound. lia.
Qed.

(** ** Building, sending and receiving a text message *)

Lemma firstn_exact {A : Type} (n : nat) (l r : list A) :
  n = length l -> firstn n (l ++ r) = l.
Proof. intros ->. apply firstn_length_app. Qed.

Lemma skipn_exact {A : Type} (n : nat) (l r : list A) :
  n = length l -> skipn n (l ++ r) = r.
Proof. intros ->. apply skipn_length_app. Qed.

(** X13. A text message built by [DataCharacterMsg], sent by
    [SendMessage] with the size returned and read back by [ReceiveMessage]
    of the same direction on the same buffer is received: [SendMessage]
    writes the 8 + 32 + 4 first bytes of the buffer to the stream, the
    receive consumes them all, returns [dataCharacter] and 32 and leaves
    the buffer exactly as [DataCharacterMsg] left it. *)
Theorem DataCharacterMsg_SendMessage_ReceiveMessage :
  forall d buf text numBytes out ps0,
    length buf = recv_buffer_len ->
    0 <= numBytes ->
    Z.min numBytes 31 <= Z.of_nat (length text) ->
    stream_ok out ->
    MockStream.remaining out = [] ->
    exists buf1 out1 out2,
      DataCharacterMsg_of d buf text numBytes = Some (buf1, 32) /\
      SendMessage buf1 out 32 = Some out1 /\
      MockStream.remaining out1 = firstn (payload_ofs + 32 + 4) buf1 /\
      ReceiveMessage_of d buf1 out1 ps0 =
        Some (MessageType.dataCharacter, 32, buf1, out2) /\
      MockStream.remaining out2 = [].
Proof.
  intros d buf text numBytes out ps0 Hlen Hn Htext Hok Hempty.
  destruct (DataCharacterMsg_of_buffer d buf text numBytes Hlen Hn Htext)
    as (Hpay & Hbuild).
  cbv zeta in Hpay, Hbuild.
  set (payload := firstn _ text ++ x00 :: _) in *.
  set (fr := frame (tag_of d) MessageType.dataCharacter 32 payload
               (firstn 4 (skipn 40 buf))) in *.
  set (buf1 := fr ++ crc_trailer payload ++ skipn 48 buf) in *.
  change recv_buffer_len with 1040%nat in Hlen.
  assert (Hold : length (firstn 4 (skipn 40 buf)) = 4%nat)
    by (apply length_firstn_skipn; lia).
  assert (Hfr : length fr = 44%nat).
  { unfold fr. rewrite length_frame by (destruct d; reflexivity).
    rewrite Hpay, Hold. reflexivity. }
  assert (Hcrc : length (crc_trailer payload) = 4%nat)
    by apply length_le_encode.
  assert (Hbuf1 : length buf1 = recv_buffer_len).
  { unfold buf1. rewrite !length_app, Hfr, Hcrc, length_skipn, Hlen.
    reflexivity. }
  assert (Hfirst : firstn (payload_ofs + 32 + 4) buf1 = fr).
  { unfold buf1. apply firstn_exact. rewrite Hfr. reflexivity. }
  assert (Hsent : MockStream.remaining (MockStream.write out fr) = fr ++ [])
    by (rewrite remaining_write, Hempty, app_nil_r by exact Hok;
        reflexivity).
  destruct (complete_frame_received d buf1 (MockStream.write out fr) ps0
              MessageType.dataCharacter 32 payload
              (firstn 4 (skipn 40 buf)) [])
    as (out2 & Hrest & Hrecv); try assumption.
  { destruct d; reflexivity. }
  { vm_compute. discriminate. }
  { rewrite Hpay. reflexivity. }
  cbv zeta in Hrecv. fold fr in Hrecv.
  rewrite Hpay in Hrecv.
  replace (skipn (payload_ofs + 32 + 4) buf1)
    with (crc_trailer payload ++ skipn 48 buf) in Hrecv
    by (unfold buf1; rewrite skipn_exact by (rewrite Hfr; reflexivity);
        reflexivity).
  rewrite (firstn_exact 4 (crc_trailer payload)) in Hrecv
    by (rewrite Hcrc; reflexivity).
  rewrite le_decode_crc_trailer, Z.eqb_refl in Hrecv.
  exists buf1, (MockStream.write out fr), out2.
  split; [exact Hbuild|]. split.
  { unfold SendMessage.
    change (Z.to_nat 32 + payload_ofs + 4)%nat with 44%nat.
    unfold buf1. rewrite (load_prefix fr) by (symmetry; exact Hfr).
    reflexivity. }
  split; [rewrite Hfirst, Hsent, app_nil_r; reflexivity|].
  split; [exact Hrecv|exact Hrest].
Qed.

(** "Hello", Head->Body, through a fresh stream. *)
Lemma DataCharacterMsg_SendMessage_ReceiveMessage_witness :
  exists buf1 out1 out2,
    H2B.DataCharacterMsg recv_buffer_init text_Hello 5 = Some (buf1, 32) /\
    SendMessage buf1 MockStream.empty 32 = Some out1 /\
    MockStream.remaining out1 = firstn (payload_ofs + 32 + 4) buf1 /\
    H2B.ReceiveMessage buf1 out1 0 =
      Some (MessageType.dataCharacter, 32, buf1, out2) /\
    MockStream.remaining out2 = [].
Proof.
  apply (DataCharacterMsg_SendMessage_ReceiveMessage HeadToBody
           recv_buffer_init text_Hello 5 MockStream.empty 0).
  - reflexivity.
  - lia.
  - vm_compute. discriminate.
  - unfold stream_ok. simpl. lia.
  - reflexivity.
Defined.

(** ** The relay, on any buffer and any stream *)

Lemma relay_runs (buf : list byte) (inp out Serial : MockStream.t) :
  length buf = recv_buffer_len ->
  exists t n buf1 inp1 buf2 Serial',
    B2H.ReceiveMessage buf inp 0 = Some (t, n, buf1, inp1) /\
    0 <= n <= 768 /\
    length buf1 = recv_buffer_len /\
    length buf2 = recv_buffer_len /\
    ReceiveAndRewriteB2HMessage buf inp out Serial =
      Some (buf2, inp1,
            MockStream.write out (firstn (Z.to_nat n + payload_ofs + 4) buf1),
            Serial') /\
    buf2 = firstn (payload_ofs + Z.to_nat n + 4) buf1 ++
           crc_trailer (firstn (Z.to_nat n) (skipn payload_ofs buf1)) ++
           skipn (payload_ofs + Z.to_nat n + 4 + 4) buf1.
Proof.
  intros Hlen.
  pose proof Hlen as Hlen'. change recv_buffer_len with 1040%nat in Hlen'.
  destruct (ReceiveMessage_in_bounds x42 x32 x48 B2H.size buf inp 0)
    as ([[[t n] buf1] inp1] & Hrecv).
  { lia. }
  { intros t. rewrite Hlen'. destruct (B2H_size_cases t); lia. }
  fold B2H.ReceiveMessage in Hrecv.
  destruct (ReceiveMessage_results _ _ _ _ _ _ _ _ _ _ _ Hrecv)
    as (Hl1 & Hcases).
  assert (Hn : 0 <= n <= 768).
  { destruct Hcases as [(_ & [->| ->])|(_ & Hsz & Hn0)]; [lia|lia|].
    destruct (B2H_size_cases t); lia. }
  rewrite Hlen' in Hl1.
  destruct (processBody2Head_keeps_buffer buf1 Serial t) as (Serial' & Hhook).
  { rewrite Hl1. unfold payload_ofs, sizeof_B2HDataFrame. lia. }
  set (w := crc_trailer (firstn (Z.to_nat n) (skipn payload_ofs buf1))).
  set (k := (payload_ofs + Z.to_nat n + 4)%nat).
  assert (Hk : (k + 4 <= length buf1)%nat)
    by (unfold k, payload_ofs; lia).
  assert (Hw : length w = 4%nat) by apply length_le_encode.
  assert (Hpre : length (firstn k buf1) = k)
    by (rewrite length_firstn; lia).
  exists t, n, buf1, inp1, (firstn k buf1 ++ w ++ skipn (k + 4) buf1), Serial'.
  split; [exact Hrecv|]. split; [exact Hn|].
  split; [rewrite Hl1; reflexivity|].
  split.
  { rewrite !length_app, Hpre, Hw, length_skipn, Hl1.
    change recv_buffer_len with 1040%nat. lia. }
  split; [|reflexivity].
  unfold ReceiveAndRewriteB2HMessage. rewrite Hrecv. cbn [bind].
  rewrite Hhook. cbn [bind].
  rewrite load_in_bounds by (unfold payload_ofs; lia).
  cbn [bind]. unfold store_u32, store.
  change (le_encode 4 (crc32 (uint32 (-1))
            (firstn (Z.to_nat n) (skipn payload_ofs buf1)))) with w.
  fold k. rewrite Hw.
  replace (k + 4 <=? length buf1)%nat with true
    by (symmetry; apply Nat.leb_le; exact Hk).
  cbn [bind].
  replace (Z.to_nat n + payload_ofs + 4)%nat with k by (unfold k; lia).
  rewrite (load_prefix (firstn k buf1)) by (symmetry; exact Hpre).
  reflexivity.
Qed.

(** X14. The relay always runs to its end and always forwards: on the
    1040-byte buffer, whatever the inbound stream delivers, no access
    leaves the buffer, and a call appends to the outbound stream exactly
    payload size + 8 + 4 bytes, the first bytes of the buffer as the
    receive left it, where the payload size is the one the receive handed
    back (0 when it failed).  The only cells of the buffer the relay
    itself changes are the four at offset 8 + size + 4, which receive the
    CRC32 of the [size] bytes at offset 8; the inbound stream is left where
    the receive left it. *)
Theorem relay_always_forwards :
  forall buf inp out Serial,
    length buf = recv_buffer_len ->
    exists t n buf1 inp1 buf2 Serial',
      B2H.ReceiveMessage buf inp 0 = Some (t, n, buf1, inp1) /\
      ReceiveAndRewriteB2HMessage buf inp out Serial =
        Some (buf2, inp1,
              MockStream.write out
                (firstn (Z.to_nat n + payload_ofs + 4) buf1),
              Serial') /\
      Z.of_nat (length (firstn (Z.to_nat n + payload_ofs + 4) buf1)) =
        n + Z.of_nat payload_ofs + 4 /\
      buf2 = firstn (payload_ofs + Z.to_nat n + 4) buf1 ++
             crc_trailer (firstn (Z.to_nat n) (skipn payload_ofs buf1)) ++
             skipn (payload_ofs + Z.to_nat n + 4 + 4) buf1.
Proof.
  intros buf inp out Serial Hlen.
  destruct (relay_runs buf inp out Serial Hlen)
    as (t & n & buf1 & inp1 & buf2 & Serial' &
        Hrecv & Hn & Hl1 & _ & Hrelay & Hbuf2).
  exists t, n, buf1, inp1, buf2, Serial'.
  split; [exact Hrecv|]. split; [exact Hrelay|]. split; [|exact Hbuf2].
  rewrite length_firstn, Hl1. change recv_buffer_len with 1040%nat.
  unfold payload_ofs. lia.
Qed.

(** A header that announces a data frame, then the end of the stream. *)
Lemma relay_always_forwards_witness :
  exists t n buf1 inp1 buf2 Serial',
    B2H.ReceiveMessage recv_buffer_init
      (MockStream.setBuffer (frame tag_B2H MessageType.dataFrame 768 [] []))
      0 = Some (t, n, buf1, inp1) /\
    ReceiveAndRewriteB2HMessage recv_buffer_init
      (MockStream.setBuffer (frame tag_B2H MessageType.dataFrame 768 [] []))
      MockStream.empty MockStream.empty =
      Some (buf2, inp1,
            MockStream.write MockStream.empty
              (firstn (Z.to_nat n + payload_ofs + 4) buf1),
            Serial') /\
    Z.of_nat (length (firstn (Z.to_nat n + payload_ofs + 4) buf1)) =
      n + Z.of_nat payload_ofs + 4 /\
    buf2 = firstn (payload_ofs + Z.to_nat n + 4) buf1 ++
           crc_trailer (firstn (Z.to_nat n) (skipn payload_ofs buf1)) ++
           skipn (payload_ofs + Z.to_nat n + 4 + 4) buf1.
Proof.
  apply (relay_always_forwards recv_buffer_init
           (MockStream.setBuffer
              (frame tag_B2H MessageType.dataFrame 768 [] []))
           MockStream.empty MockStream.empty).
  reflexivity.
Defined.

(** ** What the hooks write to [Serial] *)

Lemma skipn_nth_cons (idx : nat) (l : list byte) :
  (idx < length l)%nat ->
  skipn idx l = nth idx l x00 :: skipn (S idx) l.
Proof.
  revert l. induction idx as [|idx IH]; intros [|b l] H;
    simpl in H; try lia.
  - reflexivity.
  - cbn [skipn nth]. apply IH. lia.
Qed.

Lemma print_text_until_NUL (text : list byte) :
  length text = 32%nat ->
  forall turns idx Serial,
    (idx + turns = 32)%nat ->
    print_text turns idx text Serial =
    MockStream.mk
      (MockStream.buffer Serial ++ until_NUL (skipn idx text))
      (MockStream.readIndex Serial).
Proof.
  intros Hlen. induction turns as [|turns IH]; intros idx Serial Hi.
  - cbn [print_text]. rewrite skipn_all2 by lia. cbn [until_NUL].
    rewrite app_nil_r. destruct Serial. reflexivity.
  - cbn [print_text].
    replace (idx <? 32)%nat with true by (symmetry; apply Nat.ltb_lt; lia).
    rewrite (skipn_nth_cons idx text) by lia.
    cbn [andb until_NUL].
    destruct (Byte.eqb (nth idx text x00) x00); cbn [negb].
    + rewrite app_nil_r. destruct Serial. reflexivity.
    + rewrite IH by lia. unfold MockStream.write. simpl.
      rewrite <- app_assoc. reflexivity.
Qed.

(** X15. Of all the message types only [dataCharacter] makes
    [processBody2Head] write to [Serial]: it writes the bytes of the text
    field (the 32 bytes at offset 8 of the buffer) up to the first NUL, all
    32 when there is none, in order and after what [Serial] already held.
    For every other type [Serial] is left as it was.  The buffer is never
    changed and the result is always false. *)
Theorem processBody2Head_prints_text :
  forall recv_buffer Serial msg_type,
    length recv_buffer = recv_buffer_len ->
    processBody2Head recv_buffer Serial msg_type =
    Some (false, recv_buffer,
          if msg_type =? MessageType.dataCharacter
          then MockStream.mk
                 (MockStream.buffer Serial ++
                  until_NUL (firstn 32 (skipn payload_ofs recv_buffer)))
                 (MockStream.readIndex Serial)
          else Serial).
Proof.
  intros buf Serial t Hlen.
  change recv_buffer_len with 1040%nat in Hlen.
  unfold processBody2Head.
  destruct (t =? MessageType.ack) eqn:Eack.
  { apply Z.eqb_eq in Eack. subst t.
    destruct (hook_round_trip buf sizeof_Ack) as (v & -> & Hst);
      [unfold payload_ofs, sizeof_Ack; lia|].
    cbn [bind process_Ack]. rewrite Hst. reflexivity. }
  destruct (t =? MessageType.dataCharacter) eqn:Edc.
  { rewrite (load_in_bounds buf payload_ofs sizeof_DataCharacter)
      by (unfold payload_ofs, sizeof_DataCharacter; lia).
    cbn [bind process_DataCharacter].
    rewrite (store_load_same buf _ payload_ofs sizeof_DataCharacter)
      by (apply load_in_bounds;
          unfold payload_ofs, sizeof_DataCharacter; lia).
    cbn [bind].
    assert (Htext : length (firstn sizeof_DataCharacter
                              (skipn payload_ofs buf)) = 32%nat)
      by (apply length_firstn_skipn;
          unfold payload_ofs, sizeof_DataCharacter; lia).
    rewrite (print_text_until_NUL _ Htext 32 0 Serial eq_refl).
    reflexivity. }
  destruct (t =? MessageType.dataFrame) eqn:Edf.
  { destruct (hook_round_trip buf sizeof_B2HDataFrame) as (v & -> & Hst);
      [unfold payload_ofs, sizeof_B2HDataFrame; lia|].
    cbn [bind process_B2HDataFrame]. rewrite Hst. reflexivity. }
  reflexivity.
Qed.

(** The text "Hi" left in the buffer by [DataCharacterMsg]. *)
Lemma processBody2Head_prints_text_witness :
  processBody2Head (buffer_after_text text_Hi 2) MockStream.empty
    MessageType.dataCharacter =
  Some (false, buffer_after_text text_Hi 2,
        if MessageType.dataCharacter =? MessageType.dataCharacter
        then MockStream.mk
               (MockStream.buffer MockStream.empty ++
                until_NUL (firstn 32 (skipn payload_ofs
                                        (buffer_after_text text_Hi 2))))
               (MockStream.readIndex MockStream.empty)
        else MockStream.empty).
Proof.
  apply (processBody2Head_prints_text (buffer_after_text text_Hi 2)
           MockStream.empty MessageType.dataCharacter).
  vm_compute. reflexivity.
Defined.

(** ** Relay, then receive *)

(** X16. After a call of the relay whose receive failed, the buffer holds
    at offset 12 the CRC32 of no bytes (the register's initial value
    0xFFFFFFFF, written by the relay's recomputation for size 0); the next
    complete Body->Head frame of a type with payload size 0 ([bootFrame],
    [validate]) is then received whatever its four trailer bytes are. *)
Theorem zero_size_frame_received_after_failed_relay :
  forall buf inp out Serial t trailer rest s2 ps1,
    length buf = recv_buffer_len ->
    received (B2H.ReceiveMessage buf inp 0) = false ->
    table_lookup t spec_B2H_table = Some 0 ->
    length trailer = 4%nat ->
    MockStream.remaining s2 = frame tag_B2H t 0 [] trailer ++ rest ->
    exists buf2 inp1 out1 Serial1 buf3 s3,
      ReceiveAndRewriteB2HMessage buf inp out Serial =
        Some (buf2, inp1, out1, Serial1) /\
      load buf2 12 4 = Some [xff; xff; xff; xff] /\
      B2H.ReceiveMessage buf2 s2 ps1 = Some (t, 0, buf3, s3) /\
      MockStream.remaining s3 = rest.
Proof.
  intros buf inp out Serial t trailer rest s2 ps1
    Hlen Hfail Htab Htr Hs2.
  destruct (relay_runs buf inp out Serial Hlen)
    as (t0 & n & buf1 & inp1 & buf2 & Serial' &
        Hrecv & Hn & Hl1 & Hl2 & Hrelay & Hbuf2).
  rewrite Hrecv in Hfail. cbn [received] in Hfail.
  apply negb_false_iff, Z.eqb_eq in Hfail. subst t0.
  fold B2H.ReceiveMessage in Hrecv. unfold B2H.ReceiveMessage in Hrecv.
  destruct (ReceiveMessage_results _ _ _ _ _ _ _ _ _ _ _ Hrecv)
    as (_ & [(_ & Hn0)|(Ht0 & _)]); [|unfold invalid in Ht0; lia].
  assert (n = 0) as -> by (destruct Hn0; assumption).
  change (Z.to_nat 0) with 0%nat in Hbuf2.
  change (firstn 0 (skipn payload_ofs buf1)) with (@nil byte) in Hbuf2.
  change (crc_trailer []) with [xff; xff; xff; xff] in Hbuf2.
  change (payload_ofs + 0 + 4)%nat with 12%nat in Hbuf2.
  change recv_buffer_len with 1040%nat in Hl1.
  assert (Hword : load buf2 12 4 = Some [xff; xff; xff; xff]).
  { rewrite Hbuf2. apply load_at; [|reflexivity].
    rewrite length_firstn. lia. }
  destruct (complete_frame_received BodyToHead buf2 s2 ps1 t 0 [] trailer
              rest Hl2 Htab ltac:(vm_compute; discriminate) eq_refl Htr Hs2)
    as (s3 & Hrest & Hsecond).
  cbv zeta in Hsecond. cbn [length] in Hsecond.
  change (payload_ofs + 0 + 4)%nat with 12%nat in Hsecond.
  assert (Hw4 : firstn 4 (skipn 12 buf2) = [xff; xff; xff; xff]).
  { unfold load in Hword.
    destruct (12 + 4 <=? length buf2)%nat; [|discriminate].
    congruence. }
  rewrite Hw4 in Hsecond.
  change (crc32 (uint32 (-1)) [] =? le_decode [xff; xff; xff; xff])
    with true in Hsecond.
  cbv iota in Hsecond.
  eexists buf2, inp1, _, Serial', _, s3.
  split; [exact Hrelay|]. split; [exact Hword|].
  split; [exact Hsecond|exact Hrest].
Qed.

(** A garbage byte relayed, then a boot frame with a trailer of zeros. *)
Lemma zero_size_frame_received_after_failed_relay_witness :
  exists buf2 inp1 out1 Serial1 buf3 s3,
    ReceiveAndRewriteB2HMessage recv_buffer_init
      (MockStream.setBuffer [x00]) MockStream.empty MockStream.empty =
      Some (buf2, inp1, out1, Serial1) /\
    load buf2 12 4 = Some [xff; xff; xff; xff] /\
    B2H.ReceiveMessage buf2
      (MockStream.setBuffer
         (frame tag_B2H MessageType.bootFrame 0 [] (repeat x00 4) ++ [])) 0 =
      Some (MessageType.bootFrame, 0, buf3, s3) /\
    MockStream.remaining s3 = [].
Proof.
  apply (zero_size_frame_received_after_failed_relay recv_buffer_init
           (MockStream.setBuffer [x00]) MockStream.empty MockStream.empty
           MessageType.bootFrame (repeat x00 4) []
           (MockStream.setBuffer
              (frame tag_B2H MessageType.bootFrame 0 [] (repeat x00 4) ++ []))
           0).
  - reflexivity.
  - vm_compute. reflexivity.
  - reflexivity.
  - reflexivity.
  - reflexivity.
Defined.

(** ** The decoders of the unit tests *)

Lemma lor_shiftl_add (a b k : Z) :
  0 <= k -> 0 <= a < 2 ^ k -> Z.lor a (Z.shiftl b k) = a + b * 2 ^ k.
Proof.
  intros Hk Ha.
  assert (Hland : Z.land a (Z.shiftl b k) = 0).
  2:{ pose proof (Z.add_lor_land a (Z.shiftl b k)) as H.
      rewrite Hland in H.
      rewrite <- (Z.shiftl_mul_pow2 b k) by exact Hk. lia. }
  apply Z.bits_inj'. intros m Hm.
  rewrite Z.land_spec, Z.bits_0.
  destruct (Z.lt_ge_cases m k) as [Hlt|Hge].
  - rewrite (Z.shiftl_spec_low b k m Hlt). apply andb_false_r.
  - destruct (Z.eq_dec a 0) as [->|Hne]; [rewrite Z.bits_0; reflexivity|].
    rewrite (Z.bits_above_log2 a m); [reflexivity|lia|].
    apply Z.lt_le_trans with k; [apply Z.log2_lt_pow2; lia|exact Hge].
Qed.

Lemma uint32_to_int (z : Z) : uint32 (to_int z) = uint32 z.
Proof.
  unfold uint32, to_int.
  rewrite Zminus_mod, Zmod_mod, <- Zminus_mod.
  replace (z + 2 ^ 31 - 2 ^ 31) with z by lia. reflexivity.
Qed.

Lemma to_int_small (z : Z) : 0 <= z < 2 ^ 31 -> to_int z = z.
Proof.
  intros Hz. unfold to_int. rewrite Z.mod_small; lia.
Qed.

Lemma LE_uint16_bytes (b0 b1 : byte) (pre post : list byte) :
  LE_uint16 (pre ++ b0 :: b1 :: post) (length pre) =
  Some (le_decode [b0; b1]).
Proof.
  unfold LE_uint16.
  rewrite nth_error_app2, Nat.sub_diag by lia. cbn [nth_error bind].
  rewrite nth_error_app2 by lia.
  replace (length pre + 1 - length pre)%nat with 1%nat by lia.
  cbn [nth_error bind le_decode].
  pose proof (byte_to_Z_range b0) as H0.
  pose proof (byte_to_Z_range b1) as H1.
  unfold uint16. rewrite !(Z.mod_small (byte_to_Z _)) by lia.
  rewrite Z.shiftl_mul_pow2 by lia.
  rewrite to_int_small by lia.
  rewrite <- Z.shiftl_mul_pow2 by lia.
  rewrite lor_shiftl_add by lia.
  rewrite Z.mod_small by lia. f_equal. lia.
Qed.

(** X17. On any array, the decoders [LE::uint16] and [LE::uint32] of the
    unit tests give the value that the code's own accesses
    [*(uint16_t* )] and [*(uint32_t* )] read at the same place on the
    little-endian host, so a check written with them reads what the code
    stored; in particular they give back a 32-bit value stored as a
    word. *)
Theorem LE_decoders_agree_with_word_access :
  forall buffer ofs,
    (ofs + 4 <= length buffer)%nat ->
    LE_uint16 buffer ofs = load_u16 buffer ofs /\
    LE_uint32 buffer ofs = load_u32 buffer ofs /\
    forall v buffer',
      0 <= v < 2 ^ 32 ->
      store_u32 buffer ofs v = Some buffer' ->
      LE_uint32 buffer' ofs = Some v.
Proof.
  assert (Hdec : forall buffer ofs,
             (ofs + 4 <= length buffer)%nat ->
             LE_uint16 buffer ofs = load_u16 buffer ofs /\
             LE_uint32 buffer ofs = load_u32 buffer ofs).
  { intros buffer ofs Hlen.
    assert (Hpre : length (firstn ofs buffer) = ofs)
      by (rewrite length_firstn; lia).
    rewrite <- (firstn_skipn ofs buffer).
    destruct (skipn ofs buffer) as [|b0 [|b1 [|b2 [|b3 post]]]] eqn:Hsk;
      try (apply (f_equal (@length byte)) in Hsk;
           rewrite length_skipn in Hsk; cbn [length] in Hsk; lia).
    set (pre := firstn ofs buffer) in *.
    clearbody pre. clear Hsk Hlen. subst ofs.
    unfold load_u16, load_u32.
    rewrite (load_at pre [b0; b1] (b2 :: b3 :: post)) by reflexivity.
    rewrite (load_at pre [b0; b1; b2; b3] post) by reflexivity.
    cbn [bind].
    split; [apply LE_uint16_bytes|].
    unfold LE_uint32.
    rewrite LE_uint16_bytes. cbn [bind].
    replace (pre ++ b0 :: b1 :: b2 :: b3 :: post)
      with ((pre ++ [b0; b1]) ++ b2 :: b3 :: post)
      by (rewrite <- app_assoc; reflexivity).
    replace (length pre + 2)%nat with (length (pre ++ [b0; b1]))
      by (rewrite length_app; reflexivity).
    rewrite LE_uint16_bytes. cbn [bind].
    pose proof (le_decode_range [b0; b1]) as Hlo.
    pose proof (le_decode_range [b2; b3]) as Hhi.
    cbn [length] in Hlo, Hhi.
    change (256 ^ Z.of_nat 2) with 65536 in Hlo, Hhi.
    rewrite uint32_to_int. unfold uint32.
    rewrite (Z.mod_small (le_decode [b0; b1])) by lia.
    rewrite Z.shiftl_mul_pow2 by lia.
    rewrite (Z.mod_small (le_decode [b2; b3] * 2 ^ 16)) by lia.
    rewrite <- Z.shiftl_mul_pow2 by lia.
    rewrite lor_shiftl_add by lia.
    rewrite Z.mod_small by lia.
    f_equal. cbn [le_decode] in *. lia. }
  intros buffer ofs Hlen.
  destruct (Hdec buffer ofs Hlen) as (H16 & H32).
  split; [exact H16|]. split; [exact H32|].
  intros v buffer' Hv Hst.
  pose proof (length_store _ _ _ _ Hst) as Hl.
  destruct (Hdec buffer' ofs ltac:(lia)) as (_ & ->).
  unfold store_u32, store in Hst.
  rewrite length_le_encode in Hst.
  destruct (ofs + 4 <=? length buffer)%nat; [|discriminate].
  assert (Hb : buffer' = firstn ofs buffer ++ le_encode 4 v ++
                           skipn (ofs + 4) buffer) by congruence.
  rewrite Hb. unfold load_u32.
  rewrite (load_at (firstn ofs buffer) (le_encode 4 v))
    by (rewrite ?length_firstn, ?length_le_encode; lia).
  cbn [bind]. rewrite le_decode_encode_4 by exact Hv. reflexivity.
Qed.

(** The CRC word that [DataCharacterMsg] leaves at offset 44, as the unit
    test reads it. *)
Lemma LE_decoders_agree_with_word_access_witness :
  LE_uint16 (buffer_after_text text_Hi 2) 44 =
    load_u16 (buffer_after_text text_Hi 2) 44 /\
  LE_uint32 (buffer_after_text text_Hi 2) 44 =
    load_u32 (buffer_after_text text_Hi 2) 44 /\
  forall v buffer',
    0 <= v < 2 ^ 32 ->
    store_u32 (buffer_after_text text_Hi 2) 44 v = Some buffer' ->
    LE_uint32 buffer' 44 = Some v.
Proof.
  apply (LE_decoders_agree_with_word_access (buffer_after_text text_Hi 2) 44).
  vm_compute. lia.
Defined.
